(** * Verification of the Triton-XLA dialect operations

    Shallow embedding of [xla/backends/gpu/codegen/triton/ir/triton_xla_ops.cc]:
    the type inference and verifier of [SparseDotOp], the parser, printer and
    verifier of [TileOp], and the verifiers of [ExtractOp] and [InsertOp]. *)

From Stdlib Require Import ZArith Lia.
From stdpp Require Import base tactics decidable option list strings gmap.

(** ** Fixed-width integers *)

(** [int w] is a signed two's-complement integer of [w] bits ([int32_t],
    [int64_t]): an integer together with the evidence that it is in range. *)
Definition fits (w : Z) (z : Z) : Prop := (- 2 ^ (w - 1) ≤ z < 2 ^ (w - 1))%Z.

Definition int (w : Z) : Type := { z : Z | bool_decide (fits w z) }.

Abbreviation int32_t := (int 32).
Abbreviation int64_t := (int 64).

Definition to_Z {w} (i : int w) : Z := `i.

(** Range-checked conversion, the test a typed integer parser performs. *)
Definition of_Z (w : Z) (z : Z) : option (int w) :=
  match decide (Is_true (bool_decide (fits w z))) with
  | left H => Some (z ↾ H)
  | right _ => None
  end.

(** Result of an [int64_t] operation whose mathematical value is [z]:
    signed overflow is undefined in C++; the model takes the
    two's-complement result that the hardware multiplication leaves. *)
Definition wrap64 (z : Z) : Z := ((z + 2 ^ 63) mod 2 ^ 64 - 2 ^ 63)%Z.

Definition mul_i64 (a b : Z) : Z := wrap64 (a * b).

(** ** The IR data model the operations are written against *)

Module mlir.

Inductive LogicalResult := success | failure.

Inductive Signedness := Signless | Signed | Unsigned.

(** Element types the verifiers tell apart; every other type is
    [OtherElementType]. *)
Inductive ElementType :=
| Float16Type
| BFloat16Type
| Float32Type
| Float64Type
| IntegerType (width : N) (signedness : Signedness)
| IndexType
| OtherElementType (mnemonic : string).

Definition isF16 (t : ElementType) : bool :=
  match t with Float16Type => true | _ => false end.
Definition isBF16 (t : ElementType) : bool :=
  match t with BFloat16Type => true | _ => false end.
Definition isF32 (t : ElementType) : bool :=
  match t with Float32Type => true | _ => false end.
(** [Type::isInteger(width)]: an integer type of that width, of any
    signedness. *)
Definition isInteger (width : N) (t : ElementType) : bool :=
  match t with IntegerType w _ => bool_decide (w = width) | _ => false end.

(** Attributes.  An attribute handle is nullable in the source; a possibly
    null attribute is an [option Attribute]. *)
Inductive Attribute :=
| DenseI32ArrayAttr (elements : list int32_t)
| DenseI64ArrayAttr (elements : list int64_t)
| DialectAttr (dialect : string) (body : string).

Definition Dialect := string.

Definition getDialect (a : Attribute) : Dialect :=
  match a with
  | DenseI32ArrayAttr _ | DenseI64ArrayAttr _ => "builtin"
  | DialectAttr d _ => d
  end.

(** The part of a shaped type seen through [TensorOrMemDesc]: shape
    ([ArrayRef<int64_t>]), element type, encoding. *)
Record ShapedType := {
  getShape : list int64_t;
  getElementType : ElementType;
  getEncoding : option Attribute;
}.

Definition RankedTensorType := ShapedType.
Definition getRank (t : ShapedType) : nat := length (getShape t).

(** A tiled tensor type pairs the type of the tile with the type of the
    tensor it is carved from ([TiledTensorType::get(ctx, tile, original)]). *)
Record TiledTensorType := {
  getTileType : RankedTensorType;
  getOriginalType : RankedTensorType;
}.

Inductive Type_ :=
| RankedTensor (t : RankedTensorType)
| MemDesc (t : ShapedType) (memorySpace : option Attribute)
| TiledTensor (t : TiledTensorType)
| Scalar (t : ElementType).

(** An SSA value: the identifier it is printed under and its type. *)
Record TypedValue (T : Type) := {
  getName : string;
  getType : T;
}.
Arguments getName {T} _.
Arguments getType {T} _.

Definition Value := TypedValue Type_.

Record Location := { getLoc : string }.

Definition NamedAttrList := list (string * Attribute).

(** A generic operation, as [getOperand], [getOperation] see it. *)
Record Operation := {
  getOperationName : string;
  getOperands : list Value;
  getAttrs : NamedAttrList;
  getResultTypes : list Type_;
}.

#[global] Instance Signedness_eq_dec : EqDecision Signedness.
Proof. solve_decision. Defined.
#[global] Instance ElementType_eq_dec : EqDecision ElementType.
Proof. solve_decision. Defined.
#[global] Instance Attribute_eq_dec : EqDecision Attribute.
Proof. solve_decision. Defined.
#[global] Instance ShapedType_eq_dec : EqDecision ShapedType.
Proof. solve_decision. Defined.
#[global] Instance TiledTensorType_eq_dec : EqDecision TiledTensorType.
Proof. solve_decision. Defined.
#[global] Instance Type_eq_dec : EqDecision Type_.
Proof. solve_decision. Defined.

(** *** Outcomes of running a routine *)

(** A routine either returns, having emitted some diagnostics, or stops the
    process.  Assertions are taken as enabled: [assert], [cast<>] on a
    value of the wrong kind and [operator[]] out of range abort; a call
    through a null pointer faults. *)
Inductive Fault :=
| AssertionFailed (what : string)
| NullDereference.

Inductive Outcome (A : Type) : Type :=
| Returns (a : A) (diagnostics : list string)
| Aborts (f : Fault).
Arguments Returns {A} _ _.
Arguments Aborts {A} _.

#[global] Instance Outcome_ret : MRet Outcome := λ A a, Returns a [].
#[global] Instance Outcome_bind : MBind Outcome := λ A B f m,
  match m with
  | Returns a d =>
      match f a with
      | Returns b d' => Returns b (d ++ d')
      | Aborts x => Aborts x
      end
  | Aborts x => Aborts x
  end.

(** [emitError(msg)] used as a return value: the diagnostic is reported and
    the routine returns [failure]. *)
Definition emitError (msg : string) : Outcome LogicalResult :=
  Returns failure [msg].

(** [llvm::cast<RankedTensorType>(ty)] *)
Definition cast_RankedTensorType (ty : Type_) : Outcome RankedTensorType :=
  match ty with
  | RankedTensor t => mret t
  | _ => Aborts (AssertionFailed "cast<RankedTensorType>")
  end.

(** [llvm::cast<TensorOrMemDesc>(ty)]: ranked tensors and memory
    descriptors implement the interface. *)
Definition cast_TensorOrMemDesc (ty : Type_) : Outcome ShapedType :=
  match ty with
  | RankedTensor t => mret t
  | MemDesc t _ => mret t
  | _ => Aborts (AssertionFailed "cast<TensorOrMemDesc>")
  end.

(** [operands[i]] and [getOperand(i)] *)
Definition operand_at (operands : list Value) (i : nat) : Outcome Value :=
  match operands !! i with
  | Some v => mret v
  | None => Aborts (AssertionFailed "operand index out of range")
  end.

(** [shape[i]], read as an integer; every use is guarded by a preceding
    [shape.size() == 2] test on the same array. *)
Definition dim (shape : list int64_t) (i : nat) : Z :=
  nth i (to_Z <$> shape) 0%Z.

(** The layout capability a dialect may implement.  It is the external
    collaborator of this file: its two methods are fields, and each returns
    its verdict with the diagnostics it reported. *)
Record DialectInferLayoutInterface := {
  inferDotOpEncoding :
    Attribute → nat → Attribute → option Location →
    LogicalResult * list string;
  verifyDotOpEncodingCompatibility :
    Operation → Attribute → Attribute → LogicalResult * list string;
}.

Definition call {A} (r : A * list string) : Outcome A := Returns r.1 r.2.

(** [LogicalResult::failed()] *)
Definition failed (r : LogicalResult) : bool :=
  match r with failure => true | success => false end.

Definition typeOf (v : Value) : Type_ := getType v.

(** A value of statically known tensor type, seen as a plain value. *)
Definition asValue (v : TypedValue RankedTensorType) : Value :=
  {| getName := getName v; getType := RankedTensor (getType v) |}.

(** A value of tiled tensor type, seen as a plain value. *)
Definition asTiledValue (v : TypedValue TiledTensorType) : Value :=
  {| getName := getName v; getType := TiledTensor (getType v) |}.

(** The context knows, for each dialect, whether it implements the layout
    interface ([dyn_cast<DialectInferLayoutInterface>(&dialect)]). *)
Record MLIRContext := {
  getLayoutInterface : Dialect → option DialectInferLayoutInterface;
}.

End mlir.
Import mlir.

(** ** SparseDotOp *)

Module SparseDotOp.

(** [SparseDotOp::inferReturnTypes].  [inferredReturnTypes] is the
    caller's output vector, passed in and returned; the attribute,
    property and region arguments are not read by the body. *)
Definition inferReturnTypes (context : MLIRContext)
    (location : option Location) (operands : list Value)
    (inferredReturnTypes : list Type_)
    : Outcome (LogicalResult * list Type_) :=
  (* type is the same as the accumulator *)
  accTy ← operand_at operands 2 ≫= cast_RankedTensorType ∘ typeOf;
  let inferredReturnTypes := inferredReturnTypes ++ [RankedTensor accTy] in
  (* verify encodings *)
  aTy ← operand_at operands 0 ≫= cast_TensorOrMemDesc ∘ typeOf;
  let aEnc := getEncoding aTy in
  bTy ← operand_at operands 1 ≫= cast_TensorOrMemDesc ∘ typeOf;
  let bEnc := getEncoding bTy in
  let retEnc := getEncoding accTy in
  match aEnc with
  | Some aEnc =>
      match bEnc, retEnc with
      | Some bEnc, Some retEnc =>
          let dialect := getDialect retEnc in
          match getLayoutInterface context dialect with
          | Some interface =>
              r0 ← call (inferDotOpEncoding interface aEnc 0 retEnc location);
              if failed r0
              then mret (failure, inferredReturnTypes)
              else
                r1 ← call (inferDotOpEncoding interface bEnc 1 retEnc location);
                if failed r1
                then mret (failure, inferredReturnTypes)
                else mret (success, inferredReturnTypes)
          | None => Aborts NullDereference
          end
      | _, _ => Aborts (AssertionFailed "bEnc && retEnc")
      end
  | None => mret (success, inferredReturnTypes)
  end.

(** Implied properties of 2:4 sparse dots. *)
Definition kContractingFactor : Z := 2.
Definition kMetadataElementsPerPackedValue : Z := 8.

(** [SparseDotOp::verify], on the operation the op wraps. *)
Definition verify (context : MLIRContext) (op : Operation)
    : Outcome LogicalResult :=
  (* Verify operand A. *)
  aTensorTy ← operand_at (getOperands op) 0 ≫= cast_TensorOrMemDesc ∘ typeOf;
  let aElemTy := getElementType aTensorTy in
  if negb (isF16 aElemTy) && negb (isBF16 aElemTy)
  then emitError "element type of operand A is not supported" else
  let aShape := getShape aTensorTy in
  if negb (length aShape =? 2)
  then emitError "shape of operand A is incorrect" else
  (* Verify operand B. *)
  bTensorTy ← operand_at (getOperands op) 1 ≫= cast_TensorOrMemDesc ∘ typeOf;
  let bElemTy := getElementType bTensorTy in
  if negb (isF16 bElemTy) && negb (isBF16 bElemTy)
  then emitError "element type of operand B is not supported" else
  let bShape := getShape bTensorTy in
  if negb (length bShape =? 2)
  then emitError "shape of operand B is incorrect" else
  (* Verify operand C. *)
  cTensorTy ← operand_at (getOperands op) 2 ≫= cast_RankedTensorType ∘ typeOf;
  let cElemTy := getElementType cTensorTy in
  if negb (isF32 cElemTy)
  then emitError "element type of operand C is not supported" else
  let cShape := getShape cTensorTy in
  if negb (length cShape =? 2)
  then emitError "shape of operand C is incorrect" else
  (* Check operand dependencies. *)
  if negb (dim aShape 0 =? dim cShape 0)%Z
     || negb (dim bShape 1 =? dim cShape 1)%Z
     || negb (dim bShape 0 =? mul_i64 (dim aShape 1) kContractingFactor)%Z
  then emitError "operand shape dimensions are incorrect" else
  if negb (bool_decide (aElemTy = bElemTy))
  then emitError "operand element types do not match" else
  (* Verify sparse metadata. *)
  metaTy ← operand_at (getOperands op) 3 ≫= cast_RankedTensorType ∘ typeOf;
  let metaShape := getShape metaTy in
  if negb (isInteger 16 (getElementType metaTy))
     || negb (length metaShape =? 2)
  then emitError "sparse metadata tensor is invalid" else
  if negb (dim metaShape 0 =? dim aShape 0)%Z
     || negb (mul_i64 (dim metaShape 1) kMetadataElementsPerPackedValue
              =? dim aShape 1)%Z
  then emitError "sparse metadata shape dimensions are incorrect" else
  (* Verify tensor encoding. *)
  let aEncoding := getEncoding aTensorTy in
  let bEncoding := getEncoding bTensorTy in
  match aEncoding, bEncoding with
  | None, None => mret success
  | Some aEncoding, Some bEncoding =>
      let dialect := getDialect aEncoding in
      match getLayoutInterface context dialect with
      | Some interface =>
          call (verifyDotOpEncodingCompatibility interface op
                  aEncoding bEncoding)
      | None => Aborts (AssertionFailed "cast<DialectInferLayoutInterface>")
      end
  | _, _ => emitError "mismatching encoding between A and B operands"
  end.

End SparseDotOp.

(** ** The generic assembly parser and printer

    [TileOp::parse] and [TileOp::print] are written against the generic
    [OpAsmParser] and [OpAsmPrinter].  They are modelled on the token stream
    the lexer produces: white space is not a token, a type and an attribute
    dictionary are one lexical unit each (their own syntax is defined with
    them, not here), and an integer literal is an optional [minus] followed
    by its magnitude. *)

Module AsmParser.

Inductive Token :=
| percent_identifier (name : string)
| bare_identifier (keyword : string)
| integer (magnitude : N)
| minus
| comma
| colon
| l_square
| r_square
| attr_dict (attrs : NamedAttrList)
| type_ (t : Type_).

(** The parser reads the remaining tokens and the SSA names defined so
    far, each with the type of its value. *)
Record ParserState := {
  tokens : list Token;
  ssaValues : gmap string Type_;
}.

(** A parsing routine: [None] is [failure()]. *)
Definition Parser (A : Type) : Type := ParserState → option (A * ParserState).

Definition ret {A} (a : A) : Parser A := λ st, Some (a, st).
Definition bind {A B} (p : Parser A) (k : A → Parser B) : Parser B :=
  λ st, match p st with Some (a, st') => k a st' | None => None end.
Definition fail {A} : Parser A := λ _, None.

Declare Scope parser_scope.
Delimit Scope parser_scope with parser.
Notation "x <- p ;; k" := (bind p (λ x, k))
  (at level 100, p at next level, right associativity) : parser_scope.
Notation "p ;; k" := (bind p (λ _, k))
  (at level 100, right associativity) : parser_scope.

Abbreviation UnresolvedOperand := string.

Definition next : Parser Token := λ st,
  match tokens st with
  | t :: rest => Some (t, {| tokens := rest; ssaValues := ssaValues st |})
  | [] => None
  end.

(** [parseOperand] *)
Definition parseOperand : Parser UnresolvedOperand :=
  (t <- next ;;
   match t with percent_identifier name => ret name | _ => fail end)%parser.

Definition parseLSquare : Parser unit :=
  (t <- next ;; match t with l_square => ret () | _ => fail end)%parser.

Definition parseRSquare : Parser unit :=
  (t <- next ;; match t with r_square => ret () | _ => fail end)%parser.

(** [parseOptionalRSquare]: [true] when the bracket was there and consumed. *)
Definition parseOptionalRSquare : Parser bool := λ st,
  match tokens st with
  | r_square :: rest =>
      Some (true, {| tokens := rest; ssaValues := ssaValues st |})
  | _ => Some (false, st)
  end.

(** [parseCommaSeparatedList] of [parseInteger<IntT>] elements, [IntT]
    being [w] bits wide: at least one element; a literal that does not fit
    [IntT] is rejected ("integer value too large"). *)
Fixpoint parseIntegers (w : Z) (toks : list Token)
    : option (list (int w) * list Token) :=
  match toks with
  | integer n :: rest =>
      v ← of_Z w (Z.of_N n);
      match rest with
      | comma :: rest' =>
          '(vs, rest'') ← parseIntegers w rest'; Some (v :: vs, rest'')
      | _ => Some ([v], rest)
      end
  | minus :: integer n :: rest =>
      v ← of_Z w (- Z.of_N n);
      match rest with
      | comma :: rest' =>
          '(vs, rest'') ← parseIntegers w rest'; Some (v :: vs, rest'')
      | _ => Some ([v], rest)
      end
  | _ => None
  end.

Definition parseWithoutBraces (w : Z) : Parser (list (int w)) := λ st,
  '(vs, rest) ← parseIntegers w (tokens st);
  Some (vs, {| tokens := rest; ssaValues := ssaValues st |}).

(** [DenseArrayAttrImpl<IntT>::parse] *)
Definition DenseArrayAttr_parse (w : Z) : Parser (list (int w)) :=
  (parseLSquare ;;
   empty <- parseOptionalRSquare ;;
   if (empty : bool) then ret []
   else (vs <- parseWithoutBraces w ;; parseRSquare ;; ret vs))%parser.

(** [parseOptionalAttrDict] *)
Definition parseOptionalAttrDict : Parser NamedAttrList := λ st,
  match tokens st with
  | attr_dict d :: rest =>
      Some (d, {| tokens := rest; ssaValues := ssaValues st |})
  | _ => Some ([], st)
  end.

(** [parseColonType] into a [TiledTensorType]: any other type is an
    error. *)
Definition parseColonType_TiledTensorType : Parser TiledTensorType :=
  (c <- next ;;
   match c with
   | colon =>
       t <- next ;;
       match t with type_ (TiledTensor ty) => ret ty | _ => fail end
   | _ => fail
   end)%parser.

(** [resolveOperand]: a name already defined must have the requested type;
    an unknown name becomes a forward reference of that type. *)
Definition resolveOperand (operand : UnresolvedOperand) (ty : Type_)
    : Parser Value := λ st,
  match ssaValues st !! operand with
  | Some ty' =>
      if decide (ty' = ty)
      then Some ({| getName := operand; getType := ty |}, st)
      else None
  | None =>
      Some ({| getName := operand; getType := ty |},
            {| tokens := tokens st;
               ssaValues := <[operand := ty]> (ssaValues st) |})
  end.

(** [OperationState]: what a custom parser fills in. *)
Record OperationState := {
  operands : list Value;
  attributes : NamedAttrList;
  types : list Type_;
}.

Definition addOperand (v : Value) (r : OperationState) : OperationState :=
  {| operands := operands r ++ [v];
     attributes := attributes r; types := types r |}.
Definition addAttributes (d : NamedAttrList) (r : OperationState)
    : OperationState :=
  {| operands := operands r;
     attributes := attributes r ++ d; types := types r |}.
Definition addAttribute (name : string) (a : Attribute) (r : OperationState)
    : OperationState := addAttributes [(name, a)] r.
Definition addTypes (t : Type_) (r : OperationState) : OperationState :=
  {| operands := operands r;
     attributes := attributes r; types := types r ++ [t] |}.

(** *** Printing *)

(** [p << n] for an integer. *)
Definition printInteger (z : Z) : list Token :=
  if (z <? 0)%Z then [minus; integer (Z.to_N (- z))] else [integer (Z.to_N z)].

(** [llvm::interleaveComma(range, p)] *)
Fixpoint interleaveComma {w} (range : list (int w)) : list Token :=
  match range with
  | [] => []
  | [x] => printInteger (to_Z x)
  | x :: rest => printInteger (to_Z x) ++ comma :: interleaveComma rest
  end.

(** [p << value]: the SSA name of the value. *)
Definition printValue {T} (v : TypedValue T) : list Token :=
  [percent_identifier (getName v)].

Definition printType (t : Type_) : list Token := [type_ t].

(** *** Operand lists, keywords and types *)

(** The elements of [parseOperandList]: at least one operand, then one
    more after each comma. *)
Fixpoint parseOperands (toks : list Token)
    : option (list UnresolvedOperand * list Token) :=
  match toks with
  | percent_identifier name :: rest =>
      match rest with
      | comma :: rest' =>
          '(names, rest'') ← parseOperands rest'; Some (name :: names, rest'')
      | _ => Some ([name], rest)
      end
  | _ => None
  end.

(** [parseOperandList(result, Delimiter::Square)]: the brackets are
    required and may be empty. *)
Definition parseOperandList_Square : Parser (list UnresolvedOperand) :=
  (parseLSquare ;;
   empty <- parseOptionalRSquare ;;
   if (empty : bool) then ret []
   else (names <- (λ st,
                     '(names, rest) ← parseOperands (tokens st);
                     Some (names,
                           {| tokens := rest; ssaValues := ssaValues st |})) ;;
         parseRSquare ;; ret names))%parser.

(** [parseKeyword(keyword)] *)
Definition parseKeyword (keyword : string) : Parser unit :=
  (t <- next ;;
   match t with
   | bare_identifier k => if decide (k = keyword) then ret () else fail
   | _ => fail
   end)%parser.

(** [parseType] into a plain [Type]. *)
Definition parseType : Parser Type_ :=
  (t <- next ;; match t with type_ ty => ret ty | _ => fail end)%parser.

(** [parseColonType] into a plain [Type]. *)
Definition parseColonType : Parser Type_ :=
  (c <- next ;; match c with colon => parseType | _ => fail end)%parser.

(** [resolveOperands]: each operand in turn against the same type; the
    first that does not resolve is the failure. *)
Fixpoint resolveOperands (names : list UnresolvedOperand) (ty : Type_)
    : Parser (list Value) :=
  match names with
  | [] => ret []
  | name :: names' =>
      (v <- resolveOperand name ty ;;
       vs <- resolveOperands names' ty ;;
       ret (v :: vs))%parser
  end.

Definition addOperands (vs : list Value) (r : OperationState)
    : OperationState :=
  {| operands := operands r ++ vs;
     attributes := attributes r; types := types r |}.

(** [llvm::interleaveComma] over SSA values. *)
Fixpoint interleaveCommaValues (range : list Value) : list Token :=
  match range with
  | [] => []
  | [v] => printValue v
  | v :: rest => printValue v ++ comma :: interleaveCommaValues rest
  end.

(** [printOptionalAttrDict]: nothing for an empty list. *)
Definition printOptionalAttrDict (attrs : NamedAttrList) : list Token :=
  match attrs with [] => [] | _ => [attr_dict attrs] end.

(** *** Parsing routines that contain a [cast<>]

    Besides succeeding and failing, such a routine can stop on the
    assertion of the cast. *)
Inductive ParseOutcome (A : Type) : Type :=
| Parsed (a : A) (st : ParserState)
| ParseFailed
| ParseAborted (f : Fault).
Arguments Parsed {A} _ _.
Arguments ParseFailed {A}.
Arguments ParseAborted {A} _.

Definition CheckedParser (A : Type) : Type := ParserState → ParseOutcome A.

Definition retC {A} (a : A) : CheckedParser A := λ st, Parsed a st.
Definition bindC {A B} (p : CheckedParser A) (k : A → CheckedParser B)
    : CheckedParser B :=
  λ st, match p st with
        | Parsed a st' => k a st'
        | ParseFailed => ParseFailed
        | ParseAborted f => ParseAborted f
        end.

(** A routine of the generic parser, which succeeds or fails. *)
Definition lift {A} (p : Parser A) : CheckedParser A :=
  λ st, match p st with Some (a, st') => Parsed a st' | None => ParseFailed end.

(** [mlir::cast<RankedTensorType>(ty)] inside a parsing routine. *)
Definition castRankedTensorType (ty : Type_) : CheckedParser RankedTensorType :=
  λ st, match cast_RankedTensorType ty with
        | Returns t _ => Parsed t st
        | Aborts f => ParseAborted f
        end.

Declare Scope checked_scope.
Delimit Scope checked_scope with checked.
Notation "x <- p ;; k" := (bindC p (λ x, k))
  (at level 100, p at next level, right associativity) : checked_scope.
Notation "p ;; k" := (bindC p (λ _, k))
  (at level 100, right associativity) : checked_scope.

(** Modelled from the spec: [TiledTensorType::get(context, tile_type,
    original_type)], declared with the type outside this file; the data
    model gives the type these two fields. *)
Definition TiledTensorType_get (tile_type original_type : RankedTensorType)
    : TiledTensorType :=
  {| getTileType := tile_type; getOriginalType := original_type |}.

(** [builder.getI32Type()] *)
Definition getI32Type : Type_ := Scalar (IntegerType 32 Signless).

End AsmParser.

(** ** TileOp *)

Module TileOp.
Import AsmParser.

(** The typed view of the operation that the accessors give. *)
Record TileOp := {
  getTensor : TypedValue RankedTensorType;
  getOffsets : list int32_t;
  getSizes : list int32_t;
  getStrides : list int64_t;
  getType : TiledTensorType;
}.

(** [parseDenseIntArrayAttr<DenseIntArrayAttrType>]; a null attribute from
    the element parser is a failure. *)
Definition parseDenseIntArrayAttr (w : Z) : Parser (list (int w)) :=
  DenseArrayAttr_parse w.

(** [TileOp::parse] *)
Definition parse (result : OperationState) : Parser OperationState :=
  (src <- parseOperand ;;
   offsets <- parseDenseIntArrayAttr 32 ;;
   sizes <- parseDenseIntArrayAttr 32 ;;
   strides <- parseDenseIntArrayAttr 64 ;;
   dict <- parseOptionalAttrDict ;;
   let result := addAttributes dict result in
   tiled_tensor_type <- parseColonType_TiledTensorType ;;
   v <- resolveOperand src (RankedTensor (getOriginalType tiled_tensor_type)) ;;
   let result := addOperand v result in
   let result := addAttribute "offsets" (DenseI32ArrayAttr offsets) result in
   let result := addAttribute "sizes" (DenseI32ArrayAttr sizes) result in
   let result := addAttribute "strides" (DenseI64ArrayAttr strides) result in
   let result := addTypes (TiledTensor tiled_tensor_type) result in
   ret result)%parser.

(** [TileOp::print] *)
Definition print (op : TileOp) : list Token :=
  printValue (getTensor op)
  ++ [l_square] ++ interleaveComma (getOffsets op)
  ++ [r_square; l_square] ++ interleaveComma (getSizes op)
  ++ [r_square; l_square] ++ interleaveComma (getStrides op)
  ++ [r_square; colon] ++ printType (TiledTensor (getType op)).

(** [TileOp::verify] *)
Definition verify (op : TileOp) : Outcome LogicalResult :=
  if getRank (mlir.getType (getTensor op)) =? 0
  then emitError "cannot tile a 0-d tensor" else
  let tensor_rank := getRank (mlir.getType (getTensor op)) in
  if negb (tensor_rank =? length (getOffsets op))
     || negb (tensor_rank =? length (getSizes op))
     || negb (tensor_rank =? length (getStrides op))
  then emitError
         "mismatch between tensor rank and one or more of offsets/sizes/strides"
  else mret success.

End TileOp.

(** ** ExtractOp and InsertOp *)

(** The rank accessor of [TiledTensorType] is declared with the type; the
    two verifiers below take it as a parameter. *)

Module ExtractOp.

Record ExtractOp := {
  getSrc : TypedValue TiledTensorType;
  getOffsets : list Value;
  getResult : TypedValue RankedTensorType;
}.

Section verify.
Context (TiledTensorType_getRank : TiledTensorType → nat).

(** [ExtractOp::verify] *)
Definition verify (op : ExtractOp) : Outcome LogicalResult :=
  if getRank (getType (getResult op)) =? 0
  then emitError "cannot extract a 0-d tensor" else
  if negb (TiledTensorType_getRank (getType (getSrc op))
           =? length (getOffsets op))
  then emitError "source tensor rank does not match number of offsets"
  else mret success.

End verify.

Import AsmParser.

(** [ExtractOp::parse] *)
Definition parse (result : OperationState) : CheckedParser OperationState :=
  (tiled_tensor <- lift parseOperand ;;
   offsets <- lift parseOperandList_Square ;;
   dict <- lift parseOptionalAttrDict ;;
   let result := addAttributes dict result in
   original_type <- lift parseColonType ;;
   lift (parseKeyword "to") ;;
   tile_type <- lift parseType ;;
   tile <- castRankedTensorType tile_type ;;
   original <- castRankedTensorType original_type ;;
   let tiled_tensor_type := TiledTensorType_get tile original in
   let offset_type := getI32Type in
   v <- lift (resolveOperand tiled_tensor (TiledTensor tiled_tensor_type)) ;;
   let result := addOperand v result in
   vs <- lift (resolveOperands offsets offset_type) ;;
   let result := addOperands vs result in
   retC (addTypes tile_type result))%checked.

(** [ExtractOp::print]; [attrs] is what [getAttrs()] of the operation
    returns. *)
Definition print (attrs : NamedAttrList) (op : ExtractOp) : list Token :=
  let tiled_type := getType (getSrc op) in
  printValue (getSrc op) ++ [l_square]
  ++ interleaveCommaValues (getOffsets op)
  ++ [r_square]
  ++ printOptionalAttrDict attrs
  ++ [colon] ++ printType (RankedTensor (getOriginalType tiled_type))
  ++ [bare_identifier "to"]
  ++ printType (RankedTensor (getTileType tiled_type)).

End ExtractOp.

Module InsertOp.

Record InsertOp := {
  getSrc : TypedValue RankedTensorType;
  getDst : TypedValue TiledTensorType;
  getOffsets : list Value;
  getResult : TypedValue RankedTensorType;
}.

Section verify.
Context (TiledTensorType_getRank : TiledTensorType → nat).

(** [InsertOp::verify] *)
Definition verify (op : InsertOp) : Outcome LogicalResult :=
  if getRank (getType (getSrc op)) =? 0
  then emitError "cannot insert a 0-d tensor" else
  if negb (TiledTensorType_getRank (getType (getDst op))
           =? length (getOffsets op))
  then emitError "destination tensor rank does not match number of offsets"
  else mret success.

End verify.

Import AsmParser.

(** [InsertOp::parse] *)
Definition parse (result : OperationState) : CheckedParser OperationState :=
  (tile <- lift parseOperand ;;
   lift (parseKeyword "into") ;;
   tiled_tensor <- lift parseOperand ;;
   offsets <- lift parseOperandList_Square ;;
   dict <- lift parseOptionalAttrDict ;;
   let result := addAttributes dict result in
   tile_type <- lift parseColonType ;;
   lift (parseKeyword "into") ;;
   original_type <- lift parseType ;;
   v_tile <- lift (resolveOperand tile tile_type) ;;
   let result := addOperand v_tile result in
   tile_ranked <- castRankedTensorType tile_type ;;
   original_ranked <- castRankedTensorType original_type ;;
   let tiled_tensor_type := TiledTensorType_get tile_ranked original_ranked in
   let offset_type := getI32Type in
   v <- lift (resolveOperand tiled_tensor (TiledTensor tiled_tensor_type)) ;;
   let result := addOperand v result in
   vs <- lift (resolveOperands offsets offset_type) ;;
   let result := addOperands vs result in
   retC (addTypes original_type result))%checked.

(** [InsertOp::print]; [attrs] is what [getAttrs()] of the operation
    returns. *)
Definition print (attrs : NamedAttrList) (op : InsertOp) : list Token :=
  let tiled_type := getType (getDst op) in
  printValue (getSrc op) ++ [bare_identifier "into"]
  ++ printValue (getDst op) ++ [l_square]
  ++ interleaveCommaValues (getOffsets op)
  ++ [r_square]
  ++ printOptionalAttrDict attrs
  ++ [colon] ++ printType (RankedTensor (getTileType tiled_type))
  ++ [bare_identifier "into"]
  ++ printType (RankedTensor (getOriginalType tiled_type)).

End InsertOp.

(** ** The relations of the specification *)

Module Spec.

(** The operand's type implements [TensorOrMemDesc], and this is its
    shaped view. *)
Inductive TensorOrMemDesc : Type_ → ShapedType → Prop :=
| tensor_view t : TensorOrMemDesc (RankedTensor t) t
| memdesc_view t space : TensorOrMemDesc (MemDesc t space) t.

Definition half_precision (e : ElementType) : Prop :=
  e = Float16Type ∨ e = BFloat16Type.

Definition integer16 (e : ElementType) : Prop :=
  ∃ s, e = IntegerType 16 s.

(** Element types and ranks of the structured-sparse operand tuple. *)
Record operand_types (a b c m : ShapedType) : Prop := {
  A_element : half_precision (getElementType a);
  A_rank : getRank a = 2;
  B_rank : getRank b = 2;
  AB_element : getElementType b = getElementType a;
  C_element : getElementType c = Float32Type;
  C_rank : getRank c = 2;
  metadata_element : integer16 (getElementType m);
  metadata_rank : getRank m = 2;
}.

(** The five shape relations, over the integers. *)
Definition row_match (a c : ShapedType) : Prop :=
  dim (getShape a) 0 = dim (getShape c) 0.
Definition column_match (b c : ShapedType) : Prop :=
  dim (getShape b) 1 = dim (getShape c) 1.
Definition doubling (a b : ShapedType) : Prop :=
  dim (getShape b) 0 = (dim (getShape a) 1 * 2)%Z.
Definition metadata_rows (m a : ShapedType) : Prop :=
  dim (getShape m) 0 = dim (getShape a) 0.
Definition metadata_columns (m a : ShapedType) : Prop :=
  (dim (getShape m) 1 * 8)%Z = dim (getShape a) 1.

Record shape_relations (a b c m : ShapedType) : Prop := {
  rows : row_match a c;
  columns : column_match b c;
  contracting : doubling a b;
  meta_rows : metadata_rows m a;
  meta_columns : metadata_columns m a;
}.

Definition supported_AB (e : ElementType) : bool := isF16 e || isBF16 e.

(** The order in which the element-type and rank tests of the three
    tensor operands are made, with the diagnostic of the first that
    fails. *)
Definition first_type_or_rank_error (a b c : ShapedType) : option string :=
  if negb (supported_AB (getElementType a))
  then Some "element type of operand A is not supported"
  else if negb (getRank a =? 2)
  then Some "shape of operand A is incorrect"
  else if negb (supported_AB (getElementType b))
  then Some "element type of operand B is not supported"
  else if negb (getRank b =? 2)
  then Some "shape of operand B is incorrect"
  else if negb (isF32 (getElementType c))
  then Some "element type of operand C is not supported"
  else if negb (getRank c =? 2)
  then Some "shape of operand C is incorrect"
  else None.

(** Every test that precedes the encoding test passes, as the verifier
    evaluates them. *)
Definition operand_checks (a b c m : ShapedType) : bool :=
  bool_decide (first_type_or_rank_error a b c = None)
  && (dim (getShape a) 0 =? dim (getShape c) 0)%Z
  && (dim (getShape b) 1 =? dim (getShape c) 1)%Z
  && (dim (getShape b) 0 =? mul_i64 (dim (getShape a) 1) 2)%Z
  && bool_decide (getElementType a = getElementType b)
  && isInteger 16 (getElementType m)
  && (getRank m =? 2)
  && (dim (getShape m) 0 =? dim (getShape a) 0)%Z
  && (mul_i64 (dim (getShape m) 1) 8 =? dim (getShape a) 1)%Z.

(** A written type on which [cast<RankedTensorType>] asserts. *)
Definition not_ranked (ty : Type_) : Prop := ∀ t, ty ≠ RankedTensor t.

(** The operand is an [i32] value that the scope defines as such. *)
Definition defined_index (ssa : gmap string Type_) (v : Value) : Prop :=
  typeOf v = AsmParser.getI32Type ∧
  ssa !! getName v = Some AsmParser.getI32Type.

End Spec.

(** ** Fixtures *)

Module Fixture.

Definition tensor (shape : list int64_t) (e : ElementType) : ShapedType :=
  {| getShape := shape; getElementType := e; getEncoding := None |}.

Definition encoded (shape : list int64_t) (e : ElementType) (enc : Attribute)
    : ShapedType :=
  {| getShape := shape; getElementType := e; getEncoding := Some enc |}.

Definition value (name : string) (t : ShapedType) : Value :=
  {| getName := name; getType := RankedTensor t |}.

Definition sparse_dot (a b c m : ShapedType) : Operation :=
  {| getOperationName := "triton_xla.sparse_dot";
     getOperands := [value "a" a; value "b" b; value "c" c; value "meta" m];
     getAttrs := [];
     getResultTypes := [RankedTensor c] |}.

Definition d (z : Z) (H : bool_decide (fits 64 z)) : int64_t := z ↾ H.

(** The canonical positive tuple: A 4x8 bf16, B 16x4 bf16, C 4x4 f32,
    metadata 4x1 i16. *)
Definition A := tensor [d 4 I; d 8 I] BFloat16Type.
Definition B := tensor [d 16 I; d 4 I] BFloat16Type.
Definition C := tensor [d 4 I; d 4 I] Float32Type.
Definition metadata := tensor [d 4 I; d 1 I] (IntegerType 16 Signless).

(** Metadata with 2^61 + 1 columns: eight times that is 2^64 + 8. *)
Definition wide_metadata :=
  tensor [d 4 I; d 2305843009213693953 I] (IntegerType 16 Signless).

(** A of rank one with a supported element type, B of an unsupported
    element type. *)
Definition A_rank1 := tensor [d 4 I] Float16Type.
Definition B_f32 := tensor [d 8 I; d 4 I] Float32Type.

(** No dialect implements the layout interface. *)
Definition no_layout : MLIRContext := {| getLayoutInterface := λ _, None |}.

(** A layout interface with the given verdicts: [infer0] and [infer1] for
    operand index 0 and 1, [compatible] for the compatibility test. *)
Definition layout_interface (infer0 infer1 compatible : LogicalResult)
    : DialectInferLayoutInterface :=
  {| inferDotOpEncoding := λ _ idx _ _,
       let r := match idx with O => infer0 | _ => infer1 end in
       (r, if failed r then ["cannot infer dot operand encoding"] else []);
     verifyDotOpEncodingCompatibility := λ _ _ _,
       (compatible,
        if failed compatible then ["incompatible encodings"] else []) |}.

(** Every dialect implements it. *)
Definition layout (infer0 infer1 compatible : LogicalResult) : MLIRContext :=
  {| getLayoutInterface := λ _,
       Some (layout_interface infer0 infer1 compatible) |}.

Definition blocked : Attribute := DialectAttr "ttg" "blocked".
Definition dot_operand (idx : string) : Attribute :=
  DialectAttr "ttg" ("dot_op" +:+ idx).

(** The canonical tuple with encodings on A, B and C. *)
Definition A_encoded :=
  encoded [d 4 I; d 8 I] BFloat16Type (dot_operand "0").
Definition B_encoded :=
  encoded [d 16 I; d 4 I] BFloat16Type (dot_operand "1").
Definition C_encoded := encoded [d 4 I; d 4 I] Float32Type blocked.

Import AsmParser.

Definition i (z : Z) (H : bool_decide (fits 32 z)) : int32_t := z ↾ H.

Definition typed {T} (name : string) (t : T) : TypedValue T :=
  {| getName := name; getType := t |}.

Definition empty_state : OperationState :=
  {| operands := []; attributes := []; types := [] |}.

(** A 4x4 tile of a 16x16 tensor; the second stride does not fit 32 bits. *)
Definition tile : TileOp.TileOp :=
  {| TileOp.getTensor := typed "arg0" (tensor [d 16 I; d 16 I] BFloat16Type);
     TileOp.getOffsets := [i 0 I; i (-4) I];
     TileOp.getSizes := [i 4 I; i 4 I];
     TileOp.getStrides := [d 1 I; d 4294967296 I];
     TileOp.getType :=
       {| getTileType := tensor [d 4 I; d 4 I] BFloat16Type;
          getOriginalType := tensor [d 16 I; d 16 I] BFloat16Type |} |}.

(** A tile of a 4-element tensor whose result type names an 8-element
    original tensor. *)
Definition mismatched_tile : TileOp.TileOp :=
  {| TileOp.getTensor := typed "arg0" (tensor [d 4 I] Float16Type);
     TileOp.getOffsets := [i 0 I];
     TileOp.getSizes := [i 2 I];
     TileOp.getStrides := [d 1 I];
     TileOp.getType :=
       {| getTileType := tensor [d 2 I] Float16Type;
          getOriginalType := tensor [d 8 I] Float16Type |} |}.

(** A rank-3 source with two offsets. *)
Definition short_offsets_tile : TileOp.TileOp :=
  {| TileOp.getTensor :=
       typed "arg0" (tensor [d 8 I; d 8 I; d 8 I] BFloat16Type);
     TileOp.getOffsets := [i 0 I; i 0 I];
     TileOp.getSizes := [i 2 I; i 2 I; i 2 I];
     TileOp.getStrides := [d 1 I; d 1 I; d 1 I];
     TileOp.getType :=
       {| getTileType := tensor [d 2 I; d 2 I; d 2 I] BFloat16Type;
          getOriginalType := tensor [d 8 I; d 8 I; d 8 I] BFloat16Type |} |}.

(** The scope in which the source operand of a tile is defined. *)
Definition scope_of (v : TypedValue RankedTensorType) : gmap string Type_ :=
  {[ getName v := RankedTensor (getType v) ]}.

(** The text of a tile with one offset, one size and one stride. *)
Definition tile_text (offset size stride : Z) (ty : TiledTensorType)
    : list Token :=
  [percent_identifier "arg0"; l_square] ++ printInteger offset
  ++ [r_square; l_square] ++ printInteger size
  ++ [r_square; l_square] ++ printInteger stride
  ++ [r_square; colon; type_ (TiledTensor ty)].

(** One reading of the rank of a tiled tensor: that of its original
    tensor. *)
Definition original_rank (t : TiledTensorType) : nat :=
  getRank (getOriginalType t).

Definition tiled : TiledTensorType :=
  {| getTileType := tensor [d 4 I] BFloat16Type;
     getOriginalType := tensor [d 16 I; d 16 I] BFloat16Type |}.

Definition index (name : string) : Value :=
  {| getName := name; getType := Scalar (IntegerType 32 Signless) |}.

(** A rank-1 tile taken out of, and put into, a rank-2 tensor: two
    offsets. *)
Definition extract : ExtractOp.ExtractOp :=
  {| ExtractOp.getSrc := typed "tiled" tiled;
     ExtractOp.getOffsets := [index "i"; index "j"];
     ExtractOp.getResult := typed "tile" (tensor [d 4 I] BFloat16Type) |}.

Definition insert : InsertOp.InsertOp :=
  {| InsertOp.getSrc := typed "tile" (tensor [d 4 I] BFloat16Type);
     InsertOp.getDst := typed "tiled" tiled;
     InsertOp.getOffsets := [index "i"; index "j"];
     InsertOp.getResult :=
       typed "out" (tensor [d 16 I; d 16 I] BFloat16Type) |}.

(** The negative tuple of the specification: B 15x4. *)
Definition B_15 := tensor [d 15 I; d 4 I] BFloat16Type.

(** A of the other half-precision type; metadata of 32-bit integers. *)
Definition A_f16 := tensor [d 4 I; d 8 I] Float16Type.
Definition metadata_i32 := tensor [d 4 I; d 1 I] (IntegerType 32 Signless).

(** The text of an extract: any two written types. *)
Definition extract_text (src : string) (offsets : list Value)
    (attrs : NamedAttrList) (original_type tile_type : Type_) : list Token :=
  [percent_identifier src; l_square]
  ++ interleaveCommaValues offsets
  ++ [r_square]
  ++ printOptionalAttrDict attrs
  ++ [colon; type_ original_type; bare_identifier "to"; type_ tile_type].

(** The text of an insert: any two written types. *)
Definition insert_text (src dst : string) (offsets : list Value)
    (attrs : NamedAttrList) (tile_type original_type : Type_) : list Token :=
  [percent_identifier src; bare_identifier "into";
   percent_identifier dst; l_square]
  ++ interleaveCommaValues offsets
  ++ [r_square]
  ++ printOptionalAttrDict attrs
  ++ [colon; type_ tile_type; bare_identifier "into"; type_ original_type].

(** The scope in which the operands of [extract] and [insert] are
    defined. *)
Definition tiling_scope : gmap string Type_ :=
  {[ "tiled" := TiledTensor tiled;
     "tile" := RankedTensor (tensor [d 4 I] BFloat16Type);
     "i" := getI32Type; "j" := getI32Type ]}.

(** An insert whose source is not of the tile type of its destination. *)
Definition mismatched_insert : InsertOp.InsertOp :=
  {| InsertOp.getSrc := typed "wide" (tensor [d 8 I] BFloat16Type);
     InsertOp.getDst := typed "tiled" tiled;
     InsertOp.getOffsets := [index "i"; index "j"];
     InsertOp.getResult :=
       typed "out" (tensor [d 16 I; d 16 I] BFloat16Type) |}.

Definition discardable : NamedAttrList := [("note", DialectAttr "xla" "hint")].

(** The text of [tile] before and after parsing, and what it parses to. *)
Definition tile_input : ParserState :=
  {| tokens := TileOp.print tile; ssaValues := scope_of (TileOp.getTensor tile) |}.
Definition tile_consumed : ParserState :=
  {| tokens := []; ssaValues := scope_of (TileOp.getTensor tile) |}.
Definition tile_parsed : OperationState :=
  {| operands := [asValue (TileOp.getTensor tile)];
     attributes :=
       [("offsets", DenseI32ArrayAttr (TileOp.getOffsets tile));
        ("sizes", DenseI32ArrayAttr (TileOp.getSizes tile));
        ("strides", DenseI64ArrayAttr (TileOp.getStrides tile))];
     types := [TiledTensor (TileOp.getType tile)] |}.

End Fixture.

(** * Properties *)

(** ** Auxiliary facts *)

Lemma bind_mret {A B} (f : A → Outcome B) (a : A) : mret a ≫= f = f a.
Proof. unfold mret, Outcome_ret, mbind, Outcome_bind. by destruct (f a). Qed.

Lemma to_Z_fits {w} (i : int w) : fits w (to_Z i).
Proof. destruct i as [z H]. simpl. by apply bool_decide_unpack in H. Qed.

Lemma fits_all {w} (l : list (int w)) : Forall (fits w) (to_Z <$> l).
Proof. induction l; constructor; auto using to_Z_fits. Qed.

Lemma of_Z_to_Z {w} (i : int w) : of_Z w (to_Z i) = Some i.
Proof.
  unfold of_Z. destruct (decide _) as [H|H].
  - f_equal. by apply (sig_eq_pi _).
  - destruct H. by destruct i.
Qed.

Lemma of_Z_Some w z v : of_Z w z = Some v → to_Z v = z ∧ fits w z.
Proof.
  unfold of_Z. destruct (decide _) as [H|H]; [|done].
  intros [= <-]. split; [done|]. by apply bool_decide_unpack in H.
Qed.

Lemma of_Z_None w z : of_Z w z = None ↔ ¬ fits w z.
Proof.
  unfold of_Z. destruct (decide _) as [H|H].
  - split; [done|]. intros Hn. destruct Hn. by apply bool_decide_unpack in H.
  - split; [|done]. intros _ Hf. apply H. by apply bool_decide_pack.
Qed.

Lemma of_Z_fits w z : fits w z → ∃ v, of_Z w z = Some v ∧ to_Z v = z.
Proof.
  intros Hf. destruct (of_Z w z) as [v|] eqn:E.
  - exists v. split; [done|]. by apply of_Z_Some in E as [? _].
  - by apply of_Z_None in E.
Qed.

Lemma dim_fits (shape : list int64_t) (i : nat) : fits 64 (dim shape i).
Proof.
  unfold dim. revert i.
  induction shape as [|x shape IH]; intros [|i]; simpl;
    try apply to_Z_fits; try apply IH; by compute.
Qed.

(** A representable value is what the 64-bit operation leaves. *)
Lemma wrap64_fits (z : Z) : fits 64 z → wrap64 z = z.
Proof.
  unfold fits, wrap64. intros H.
  change (2 ^ (64 - 1))%Z with 9223372036854775808%Z in H.
  change (2 ^ 63)%Z with 9223372036854775808%Z.
  change (2 ^ 64)%Z with 18446744073709551616%Z.
  rewrite Z.mod_small; lia.
Qed.

Lemma cast_TensorOrMemDesc_view ty t :
  Spec.TensorOrMemDesc ty t → cast_TensorOrMemDesc ty = mret t.
Proof. by intros []. Qed.

Lemma supported_AB_half_precision e :
  Spec.half_precision e → Spec.supported_AB e = true.
Proof. by intros [-> | ->]. Qed.

Lemma half_precision_supported_AB e :
  Spec.supported_AB e = true → Spec.half_precision e.
Proof. destruct e; try done; [by left | by right]. Qed.

Lemma isInteger_integer16 e : Spec.integer16 e → isInteger 16 e = true.
Proof. by intros [s ->]. Qed.

Lemma integer16_isInteger e : isInteger 16 e = true → Spec.integer16 e.
Proof.
  destruct e as [| | | |w s| |]; try done. simpl.
  intros ->%bool_decide_eq_true. by exists s.
Qed.

(** ** SparseDotOp: the stages of the verifier *)

(** The relations of the specification make every test before the
    encoding test pass. *)
Lemma relations_operand_checks a b c m :
  Spec.operand_types a b c m → Spec.shape_relations a b c m →
  Spec.operand_checks a b c m = true.
Proof.
  intros [Ha Hra Hrb Hab Hc Hrc Hm Hrm] [Hrow Hcol Hdbl Hmr Hmc].
  unfold Spec.operand_checks, Spec.first_type_or_rank_error.
  unfold Spec.row_match, Spec.column_match, Spec.doubling,
    Spec.metadata_rows, Spec.metadata_columns in *.
  rewrite Hab, (supported_AB_half_precision _ Ha), Hra, Hrb, Hc, Hrc, Hrm.
  rewrite (isInteger_integer16 _ Hm). simpl.
  unfold mul_i64. rewrite <- Hdbl, Hmc, !wrap64_fits by apply dim_fits.
  rewrite Hmr, Hrow, Hcol, !Z.eqb_refl. simpl.
  by rewrite bool_decide_eq_true_2.
Qed.

(** When the two products are representable, the tests the verifier makes
    are the relations of the specification. *)
Lemma operand_checks_relations a b c m :
  fits 64 (dim (getShape a) 1 * 2) →
  fits 64 (dim (getShape m) 1 * 8) →
  Spec.operand_checks a b c m = true →
  Spec.operand_types a b c m ∧ Spec.shape_relations a b c m.
Proof.
  intros Hfa Hfm.
  unfold Spec.operand_checks, Spec.first_type_or_rank_error, getRank, mul_i64.
  rewrite !wrap64_fits by done.
  rewrite !andb_true_iff, bool_decide_eq_true.
  intros [[[[[[[[Hty H1%Z.eqb_eq] H2%Z.eqb_eq] H3%Z.eqb_eq]
    H4%bool_decide_eq_true] H5%integer16_isInteger] H6%Nat.eqb_eq]
    H7%Z.eqb_eq] H8%Z.eqb_eq].
  destruct (Spec.supported_AB (getElementType a)) eqn:Ea; [|done].
  destruct (length (getShape a) =? 2) eqn:Era; [|done].
  destruct (Spec.supported_AB (getElementType b)) eqn:Eb; [|done].
  destruct (length (getShape b) =? 2) eqn:Erb; [|done].
  destruct (isF32 (getElementType c)) eqn:Ec; [|done].
  destruct (length (getShape c) =? 2) eqn:Erc; [|done].
  apply Nat.eqb_eq in Era, Erb, Erc.
  apply half_precision_supported_AB in Ea.
  split; split; try done.
  by destruct (getElementType c).
Qed.

Section verify_stages.
Context (context : MLIRContext) (op : Operation).
Context (va vb vc vm : Value) (a b c m : ShapedType).
Context (Hoperands : getOperands op = [va; vb; vc; vm]).
Context (HA : Spec.TensorOrMemDesc (typeOf va) a).
Context (HB : Spec.TensorOrMemDesc (typeOf vb) b).
Context (HC : typeOf vc = RankedTensor c).
Context (HM : typeOf vm = RankedTensor m).

Ltac to_operand_tests :=
  unfold SparseDotOp.verify;
  rewrite Hoperands; cbn [operand_at lookup list_lookup];
  rewrite !bind_mret; unfold compose;
  rewrite (cast_TensorOrMemDesc_view _ _ HA), bind_mret.

(** The first failing element-type or rank test decides the result. *)
Lemma verify_type_or_rank_error msg :
  Spec.first_type_or_rank_error a b c = Some msg →
  SparseDotOp.verify context op = Returns failure [msg].
Proof.
  unfold Spec.first_type_or_rank_error, Spec.supported_AB, getRank.
  to_operand_tests. rewrite negb_orb.
  destruct (negb (isF16 _) && negb (isBF16 _)); [by intros [= <-]|].
  destruct (negb (length (getShape a) =? 2)); [by intros [= <-]|].
  rewrite (cast_TensorOrMemDesc_view _ _ HB), bind_mret.
  rewrite negb_orb.
  destruct (negb (isF16 _) && negb (isBF16 _)); [by intros [= <-]|].
  destruct (negb (length (getShape b) =? 2)); [by intros [= <-]|].
  rewrite HC. cbn [cast_RankedTensorType]. rewrite bind_mret.
  destruct (negb (isF32 _)); [by intros [= <-]|].
  destruct (negb (length (getShape c) =? 2)); [by intros [= <-]|].
  done.
Qed.

Ltac past_type_and_rank_tests :=
  to_operand_tests;
  rewrite (cast_TensorOrMemDesc_view _ _ HB), bind_mret;
  rewrite HC, HM; cbn [cast_RankedTensorType]; rewrite !bind_mret;
  rewrite <- !negb_orb;
  destruct (negb (isF16 _ || isBF16 _)); [done|];
  destruct (negb (length (getShape a) =? 2)); [done|];
  destruct (negb (isF16 _ || isBF16 _)); [done|];
  destruct (negb (length (getShape b) =? 2)); [done|];
  destruct (negb (isF32 _)); [done|];
  destruct (negb (length (getShape c) =? 2)); [done|];
  unfold SparseDotOp.kContractingFactor,
    SparseDotOp.kMetadataElementsPerPackedValue.

(** Past the operand tests, the result is that of the encoding test. *)
Lemma verify_encoding_stage :
  Spec.operand_checks a b c m = true →
  SparseDotOp.verify context op =
  match getEncoding a, getEncoding b with
  | None, None => Returns success []
  | Some aEncoding, Some bEncoding =>
      match getLayoutInterface context (getDialect aEncoding) with
      | Some interface =>
          call (verifyDotOpEncodingCompatibility interface op
                  aEncoding bEncoding)
      | None => Aborts (AssertionFailed "cast<DialectInferLayoutInterface>")
      end
  | _, _ =>
      Returns failure ["mismatching encoding between A and B operands"]
  end.
Proof.
  unfold Spec.operand_checks, Spec.first_type_or_rank_error, Spec.supported_AB,
    getRank.
  rewrite !andb_true_iff, bool_decide_eq_true.
  intros [[[[[[[[Hty H1] H2] H3] H4] H5] H6] H7] H8].
  revert Hty. past_type_and_rank_tests. intros _.
  rewrite H1, H2, H3, H4, H5, H6, H7, H8. simpl.
  by destruct (getEncoding a), (getEncoding b).
Qed.

(** A test before the encoding test that does not pass makes the verifier
    fail. *)
Lemma verify_operand_checks_fail :
  Spec.operand_checks a b c m = false →
  ∃ msg, SparseDotOp.verify context op = Returns failure [msg].
Proof.
  intros Hchecks.
  destruct (Spec.first_type_or_rank_error a b c) as [msg|] eqn:Hfirst.
  { exists msg. by apply verify_type_or_rank_error. }
  revert Hchecks. unfold Spec.operand_checks. rewrite Hfirst.
  rewrite bool_decide_eq_true_2 by done. cbn [andb].
  revert Hfirst.
  unfold Spec.first_type_or_rank_error, Spec.supported_AB, getRank.
  past_type_and_rank_tests. intros _.
  destruct (dim (getShape a) 0 =? dim (getShape c) 0)%Z; [|by eexists].
  destruct (dim (getShape b) 1 =? dim (getShape c) 1)%Z; [|by eexists].
  destruct (dim (getShape b) 0 =? mul_i64 _ 2)%Z; [|by eexists].
  destruct (bool_decide (getElementType a = getElementType b));
    [|by eexists].
  destruct (isInteger 16 (getElementType m)); [|by eexists].
  destruct (length (getShape m) =? 2); [|by eexists].
  destruct (dim (getShape m) 0 =? dim (getShape a) 0)%Z; [|by eexists].
  destruct (mul_i64 _ 8 =? dim (getShape a) 1)%Z; [|by eexists].
  done.
Qed.

End verify_stages.

Section inferReturnTypes_stages.
Context (context : MLIRContext) (location : option Location).
Context (operands : list Value) (inferred : list Type_).
Context (va vb vc : Value) (rest : list Value) (a b c : ShapedType).
Context (Hoperands : operands = va :: vb :: vc :: rest).
Context (HA : Spec.TensorOrMemDesc (typeOf va) a).
Context (HB : Spec.TensorOrMemDesc (typeOf vb) b).
Context (HC : typeOf vc = RankedTensor c).

(** With the operands cast, what is left of type inference is the encoding
    test, made after the accumulator type has been pushed. *)
Lemma inferReturnTypes_encoding_stage :
  SparseDotOp.inferReturnTypes context location operands inferred =
  let inferred' := inferred ++ [RankedTensor c] in
  match getEncoding a with
  | Some aEnc =>
      match getEncoding b, getEncoding c with
      | Some bEnc, Some retEnc =>
          match getLayoutInterface context (getDialect retEnc) with
          | Some interface =>
              r0 ← call (inferDotOpEncoding interface aEnc 0 retEnc location);
              if failed r0 then mret (failure, inferred')
              else
                r1 ← call (inferDotOpEncoding interface bEnc 1 retEnc
                             location);
                if failed r1 then mret (failure, inferred')
                else mret (success, inferred')
          | None => Aborts NullDereference
          end
      | _, _ => Aborts (AssertionFailed "bEnc && retEnc")
      end
  | None => mret (success, inferred')
  end.
Proof.
  unfold SparseDotOp.inferReturnTypes.
  rewrite Hoperands. cbn [operand_at lookup list_lookup].
  rewrite !bind_mret. unfold compose.
  rewrite HC. cbn [cast_RankedTensorType]. rewrite bind_mret.
  rewrite (cast_TensorOrMemDesc_view _ _ HA), bind_mret.
  by rewrite (cast_TensorOrMemDesc_view _ _ HB), bind_mret.
Qed.

End inferReturnTypes_stages.

(** ** SparseDotOp: the claims *)

(** C1.  For every operand tuple (A, B, C, metadata) whose element types
    and shapes satisfy the structured-sparse relations (A and B of rank 2
    and of the same half-precision element type, C of rank 2 and float32,
    metadata of rank 2 and a 16-bit integer type, the five shape relations,
    A and B without encoding), [SparseDotOp::verify] succeeds and
    [SparseDotOp::inferReturnTypes] succeeds and appends exactly one type,
    the type of C. *)
Theorem SparseDotOp_valid_tuple_accepted
    (context : MLIRContext) (location : option Location) (op : Operation)
    (va vb vc vm : Value) (a b c m : ShapedType) (inferred : list Type_) :
  getOperands op = [va; vb; vc; vm] →
  Spec.TensorOrMemDesc (typeOf va) a →
  Spec.TensorOrMemDesc (typeOf vb) b →
  typeOf vc = RankedTensor c →
  typeOf vm = RankedTensor m →
  Spec.operand_types a b c m →
  Spec.shape_relations a b c m →
  getEncoding a = None →
  getEncoding b = None →
  SparseDotOp.verify context op = Returns success [] ∧
  SparseDotOp.inferReturnTypes context location (getOperands op) inferred
  = Returns (success, inferred ++ [typeOf vc]) [].
Proof.
  intros Hops HA HB HC HM Hty Hsh Ha Hb. split.
  - rewrite (verify_encoding_stage context op va vb vc vm a b c m) by
      auto using relations_operand_checks.
    by rewrite Ha, Hb.
  - rewrite (inferReturnTypes_encoding_stage context location _ inferred
               va vb vc [vm] a b c) by done.
    by rewrite Ha, HC.
Qed.

Lemma SparseDotOp_valid_tuple_accepted_witness :
  SparseDotOp.verify Fixture.no_layout
    (Fixture.sparse_dot Fixture.A Fixture.B Fixture.C Fixture.metadata)
  = Returns success [] ∧
  SparseDotOp.inferReturnTypes Fixture.no_layout None
    (getOperands
       (Fixture.sparse_dot Fixture.A Fixture.B Fixture.C Fixture.metadata)) []
  = Returns (success, [] ++ [RankedTensor Fixture.C]) [].
Proof.
  apply (SparseDotOp_valid_tuple_accepted Fixture.no_layout None
           (Fixture.sparse_dot Fixture.A Fixture.B Fixture.C Fixture.metadata)
           (Fixture.value "a" Fixture.A) (Fixture.value "b" Fixture.B)
           (Fixture.value "c" Fixture.C) (Fixture.value "meta" Fixture.metadata)
           Fixture.A Fixture.B Fixture.C Fixture.metadata []).
  - reflexivity.
  - constructor.
  - constructor.
  - reflexivity.
  - reflexivity.
  - split; try reflexivity; [by right | by exists Signless].
  - split; reflexivity.
  - reflexivity.
  - reflexivity.
Defined.

(** As long as neither product overflows 64 bits, an operand tuple that
    breaks any of the relations is rejected. *)
Lemma SparseDotOp_verify_rejects_violation
    (context : MLIRContext) (op : Operation)
    (va vb vc vm : Value) (a b c m : ShapedType) :
  getOperands op = [va; vb; vc; vm] →
  Spec.TensorOrMemDesc (typeOf va) a →
  Spec.TensorOrMemDesc (typeOf vb) b →
  typeOf vc = RankedTensor c →
  typeOf vm = RankedTensor m →
  fits 64 (dim (getShape a) 1 * 2) →
  fits 64 (dim (getShape m) 1 * 8) →
  ¬ (Spec.operand_types a b c m ∧ Spec.shape_relations a b c m) →
  ∃ msg, SparseDotOp.verify context op = Returns failure [msg].
Proof.
  intros Hops HA HB HC HM Hfa Hfm Hviolated.
  apply (verify_operand_checks_fail context op va vb vc vm a b c m);
    try done.
  destruct (Spec.operand_checks a b c m) eqn:Hchecks; [|done].
  destruct Hviolated. by apply operand_checks_relations.
Qed.

(** C2.  An operand tuple that satisfies every relation but one must be
    rejected.  The tuple A 4x8 bf16, B 16x4 bf16, C 4x4 f32, metadata
    4x2305843009213693953 i16 breaks the metadata column relation alone
    (2305843009213693953 * 8 is not 8), yet the verifier accepts it: the
    64-bit product wraps to 8. *)
Theorem SparseDotOp_verify_accepts_overflowing_metadata :
  Spec.operand_types Fixture.A Fixture.B Fixture.C Fixture.wide_metadata ∧
  Spec.row_match Fixture.A Fixture.C ∧
  Spec.column_match Fixture.B Fixture.C ∧
  Spec.doubling Fixture.A Fixture.B ∧
  Spec.metadata_rows Fixture.wide_metadata Fixture.A ∧
  ¬ Spec.metadata_columns Fixture.wide_metadata Fixture.A ∧
  SparseDotOp.verify Fixture.no_layout
    (Fixture.sparse_dot Fixture.A Fixture.B Fixture.C Fixture.wide_metadata)
  = Returns success [].
Proof.
  split; [|repeat split; try reflexivity].
  - split; try reflexivity; [by right | by exists Signless].
  - unfold Spec.metadata_columns. vm_compute. discriminate.
Qed.

(** C3 (as the code has it).  [SparseDotOp::verify] tests the operands one
    at a time and stops at the first failure: the element type of A, then
    the rank of A, then the element type of B, then the rank of B, then the
    element type of C, then the rank of C.  In particular, when the element
    type of A is supported and A is not of rank 2, the failure reported is
    the rank error of A, whatever the element type of B is. *)
Theorem SparseDotOp_verify_operand_by_operand
    (context : MLIRContext) (op : Operation)
    (va vb vc vm : Value) (a b c : ShapedType) :
  getOperands op = [va; vb; vc; vm] →
  Spec.TensorOrMemDesc (typeOf va) a →
  Spec.TensorOrMemDesc (typeOf vb) b →
  typeOf vc = RankedTensor c →
  (∀ msg, Spec.first_type_or_rank_error a b c = Some msg →
          SparseDotOp.verify context op = Returns failure [msg]) ∧
  (Spec.supported_AB (getElementType a) = true → getRank a ≠ 2 →
   SparseDotOp.verify context op
   = Returns failure ["shape of operand A is incorrect"]).
Proof.
  intros Hops HA HB HC.
  assert (∀ msg, Spec.first_type_or_rank_error a b c = Some msg →
                 SparseDotOp.verify context op = Returns failure [msg])
    as Hfirst by (intros msg; by eapply verify_type_or_rank_error).
  split; [done|]. intros Ha Hrank. apply Hfirst.
  unfold Spec.first_type_or_rank_error. rewrite Ha.
  apply Nat.eqb_neq in Hrank. by rewrite Hrank.
Qed.

Lemma SparseDotOp_verify_operand_by_operand_witness :
  SparseDotOp.verify Fixture.no_layout
    (Fixture.sparse_dot Fixture.A_rank1 Fixture.B_f32 Fixture.C
       Fixture.metadata)
  = Returns failure ["shape of operand A is incorrect"].
Proof.
  apply (SparseDotOp_verify_operand_by_operand Fixture.no_layout
           (Fixture.sparse_dot Fixture.A_rank1 Fixture.B_f32 Fixture.C
              Fixture.metadata)
           (Fixture.value "a" Fixture.A_rank1) (Fixture.value "b" Fixture.B_f32)
           (Fixture.value "c" Fixture.C) (Fixture.value "meta" Fixture.metadata)
           Fixture.A_rank1 Fixture.B_f32 Fixture.C).
  - reflexivity.
  - constructor.
  - constructor.
  - reflexivity.
  - reflexivity.
  - vm_compute. lia.
Defined.

(** C3, as stated, fails: with A of a supported element type but of rank 1
    and B of element type float32, the failure reported is the rank error
    of A and not the element-type error of B. *)
Lemma SparseDotOp_verify_reports_A_rank_before_B_element :
  Spec.supported_AB (getElementType Fixture.A_rank1) = true ∧
  getRank Fixture.A_rank1 ≠ 2 ∧
  Spec.supported_AB (getElementType Fixture.B_f32) = false ∧
  SparseDotOp.verify Fixture.no_layout
    (Fixture.sparse_dot Fixture.A_rank1 Fixture.B_f32 Fixture.C
       Fixture.metadata)
  = Returns failure ["shape of operand A is incorrect"] ∧
  SparseDotOp.verify Fixture.no_layout
    (Fixture.sparse_dot Fixture.A_rank1 Fixture.B_f32 Fixture.C
       Fixture.metadata)
  ≠ Returns failure ["element type of operand B is not supported"].
Proof. repeat split; try reflexivity; vm_compute; congruence. Qed.

(** C4 (as the code has it).  When type inference runs with the encodings
    of A, B and C present and either invocation of the layout capability
    fails, [inferReturnTypes] returns failure; the output list then holds
    the one type pushed before the encodings were looked at, the type of
    C. *)
Theorem SparseDotOp_inferReturnTypes_failure_after_push
    (context : MLIRContext) (location : option Location)
    (operands : list Value) (inferred : list Type_)
    (va vb vc : Value) (rest : list Value) (a b c : ShapedType)
    (aEnc bEnc retEnc : Attribute) (interface : DialectInferLayoutInterface) :
  operands = va :: vb :: vc :: rest →
  Spec.TensorOrMemDesc (typeOf va) a →
  Spec.TensorOrMemDesc (typeOf vb) b →
  typeOf vc = RankedTensor c →
  getEncoding a = Some aEnc →
  getEncoding b = Some bEnc →
  getEncoding c = Some retEnc →
  getLayoutInterface context (getDialect retEnc) = Some interface →
  (inferDotOpEncoding interface aEnc 0 retEnc location).1 = failure ∨
  (inferDotOpEncoding interface bEnc 1 retEnc location).1 = failure →
  ∃ diagnostics,
    SparseDotOp.inferReturnTypes context location operands inferred
    = Returns (failure, inferred ++ [typeOf vc]) diagnostics.
Proof.
  intros Hops HA HB HC Ha Hb Hc Hi Hfail.
  rewrite (inferReturnTypes_encoding_stage context location operands inferred
             va vb vc rest a b c) by done.
  rewrite Ha, Hb, Hc, HC. cbn zeta. rewrite Hi.
  unfold call, mbind, Outcome_bind, mret, Outcome_ret.
  destruct (inferDotOpEncoding interface aEnc 0 retEnc location) as [r0 d0].
  destruct (inferDotOpEncoding interface bEnc 1 retEnc location) as [r1 d1].
  simpl in *.
  destruct r0; simpl; [|by eexists].
  destruct Hfail as [ | ->]; [done|]. simpl. by eexists.
Qed.

Lemma SparseDotOp_inferReturnTypes_failure_after_push_witness :
  ∃ diagnostics,
    SparseDotOp.inferReturnTypes (Fixture.layout success failure success) None
      (getOperands
         (Fixture.sparse_dot Fixture.A_encoded Fixture.B_encoded
            Fixture.C_encoded Fixture.metadata)) []
    = Returns (failure, [] ++ [RankedTensor Fixture.C_encoded]) diagnostics.
Proof.
  apply (SparseDotOp_inferReturnTypes_failure_after_push
           (Fixture.layout success failure success) None _ []
           (Fixture.value "a" Fixture.A_encoded)
           (Fixture.value "b" Fixture.B_encoded)
           (Fixture.value "c" Fixture.C_encoded)
           [Fixture.value "meta" Fixture.metadata]
           Fixture.A_encoded Fixture.B_encoded Fixture.C_encoded
           (Fixture.dot_operand "0") (Fixture.dot_operand "1") Fixture.blocked
           (Fixture.layout_interface success failure success)).
  - reflexivity.
  - constructor.
  - constructor.
  - reflexivity.
  - reflexivity.
  - reflexivity.
  - reflexivity.
  - reflexivity.
  - right. reflexivity.
Defined.

(** C4, as stated, fails: when the first invocation of the layout
    capability fails, the output list, empty on entry, is returned holding
    the type of C. *)
Lemma SparseDotOp_inferReturnTypes_failure_keeps_accumulator_type :
  SparseDotOp.inferReturnTypes (Fixture.layout failure success success) None
    (getOperands
       (Fixture.sparse_dot Fixture.A_encoded Fixture.B_encoded
          Fixture.C_encoded Fixture.metadata)) []
  = Returns (failure, [RankedTensor Fixture.C_encoded])
      ["cannot infer dot operand encoding"] ∧
  [RankedTensor Fixture.C_encoded] ≠ [].
Proof. split; [reflexivity | discriminate]. Qed.

(** C5.  For every operation that passes the element-type, rank, shape
    and metadata tests: with both encodings null the verifier succeeds;
    with exactly one null it fails with the mismatching-encoding error;
    with both present it returns what the compatibility test of the layout
    interface of A's encoding returns for the operation and the two
    encodings, verdict and diagnostics unchanged. *)
Theorem SparseDotOp_verify_encodings
    (context : MLIRContext) (op : Operation)
    (va vb vc vm : Value) (a b c m : ShapedType) :
  getOperands op = [va; vb; vc; vm] →
  Spec.TensorOrMemDesc (typeOf va) a →
  Spec.TensorOrMemDesc (typeOf vb) b →
  typeOf vc = RankedTensor c →
  typeOf vm = RankedTensor m →
  Spec.operand_checks a b c m = true →
  (getEncoding a = None → getEncoding b = None →
   SparseDotOp.verify context op = Returns success []) ∧
  (getEncoding a = None ∧ getEncoding b ≠ None ∨
   getEncoding a ≠ None ∧ getEncoding b = None →
   SparseDotOp.verify context op
   = Returns failure ["mismatching encoding between A and B operands"]) ∧
  (∀ aEncoding bEncoding interface,
     getEncoding a = Some aEncoding →
     getEncoding b = Some bEncoding →
     getLayoutInterface context (getDialect aEncoding) = Some interface →
     SparseDotOp.verify context op
     = Returns
         (verifyDotOpEncodingCompatibility interface op aEncoding bEncoding).1
         (verifyDotOpEncodingCompatibility interface op aEncoding bEncoding).2).
Proof.
  intros Hops HA HB HC HM Hchecks.
  rewrite (verify_encoding_stage context op va vb vc vm a b c m) by done.
  repeat split.
  - by intros -> ->.
  - intros [[-> Hb] | [Ha ->]].
    + by destruct (getEncoding b).
    + by destruct (getEncoding a).
  - intros aEncoding bEncoding interface -> -> Hi. by rewrite Hi.
Qed.

Lemma SparseDotOp_verify_encodings_witness :
  SparseDotOp.verify (Fixture.layout success success failure)
    (Fixture.sparse_dot Fixture.A_encoded Fixture.B_encoded Fixture.C_encoded
       Fixture.metadata)
  = Returns failure ["incompatible encodings"].
Proof.
  apply (SparseDotOp_verify_encodings (Fixture.layout success success failure)
           (Fixture.sparse_dot Fixture.A_encoded Fixture.B_encoded
              Fixture.C_encoded Fixture.metadata)
           (Fixture.value "a" Fixture.A_encoded)
           (Fixture.value "b" Fixture.B_encoded)
           (Fixture.value "c" Fixture.C_encoded)
           (Fixture.value "meta" Fixture.metadata)
           Fixture.A_encoded Fixture.B_encoded Fixture.C_encoded
           Fixture.metadata
           eq_refl (Spec.tensor_view _) (Spec.tensor_view _) eq_refl eq_refl
           eq_refl)
    with (aEncoding := Fixture.dot_operand "0")
         (bEncoding := Fixture.dot_operand "1")
         (interface := Fixture.layout_interface success success failure);
    reflexivity.
Defined.

(** C9.  On the encoded path (the encoding of A present) type inference
    has two preconditions that it does not turn into an inference failure.
    When the encodings of B and C are present and the dialect of C's
    encoding implements the layout interface, inference returns.  When the
    encoding of B or of C is absent, the assertion stops the run; when the
    dialect does not implement the interface, the call through the null
    interface pointer faults. *)
Theorem SparseDotOp_inferReturnTypes_preconditions
    (context : MLIRContext) (location : option Location)
    (operands : list Value) (inferred : list Type_)
    (va vb vc : Value) (rest : list Value) (a b c : ShapedType)
    (aEnc : Attribute) :
  operands = va :: vb :: vc :: rest →
  Spec.TensorOrMemDesc (typeOf va) a →
  Spec.TensorOrMemDesc (typeOf vb) b →
  typeOf vc = RankedTensor c →
  getEncoding a = Some aEnc →
  match getEncoding b, getEncoding c with
  | Some bEnc, Some retEnc =>
      match getLayoutInterface context (getDialect retEnc) with
      | Some interface =>
          ∃ result diagnostics,
            SparseDotOp.inferReturnTypes context location operands inferred
            = Returns (result, inferred ++ [typeOf vc]) diagnostics
      | None =>
          SparseDotOp.inferReturnTypes context location operands inferred
          = Aborts NullDereference
      end
  | _, _ =>
      SparseDotOp.inferReturnTypes context location operands inferred
      = Aborts (AssertionFailed "bEnc && retEnc")
  end.
Proof.
  intros Hops HA HB HC Ha.
  rewrite (inferReturnTypes_encoding_stage context location operands inferred
             va vb vc rest a b c) by done.
  rewrite Ha, HC. cbn zeta.
  destruct (getEncoding b) as [bEnc|]; [|done].
  destruct (getEncoding c) as [retEnc|]; [|done].
  destruct (getLayoutInterface context (getDialect retEnc)) as [interface|];
    [|done].
  unfold call, mbind, Outcome_bind, mret, Outcome_ret.
  destruct (inferDotOpEncoding interface aEnc 0 retEnc location) as [[] d0];
    destruct (inferDotOpEncoding interface bEnc 1 retEnc location) as [[] d1];
    simpl; by do 2 eexists.
Qed.

Lemma SparseDotOp_inferReturnTypes_preconditions_witness :
  ∃ result diagnostics,
    SparseDotOp.inferReturnTypes (Fixture.layout success success success) None
      (getOperands
         (Fixture.sparse_dot Fixture.A_encoded Fixture.B_encoded
            Fixture.C_encoded Fixture.metadata)) []
    = Returns (result, [] ++ [RankedTensor Fixture.C_encoded]) diagnostics.
Proof.
  apply (SparseDotOp_inferReturnTypes_preconditions
           (Fixture.layout success success success) None _ []
           (Fixture.value "a" Fixture.A_encoded)
           (Fixture.value "b" Fixture.B_encoded)
           (Fixture.value "c" Fixture.C_encoded)
           [Fixture.value "meta" Fixture.metadata]
           Fixture.A_encoded Fixture.B_encoded Fixture.C_encoded
           (Fixture.dot_operand "0")
           eq_refl (Spec.tensor_view _) (Spec.tensor_view _) eq_refl eq_refl).
Defined.

(** ** TileOp: the parser reads back what the printer writes *)

Import AsmParser.

(** An integer literal followed by a closing bracket is one element. *)
Lemma parseIntegers_literal w z rest :
  parseIntegers w (printInteger z ++ r_square :: rest)
  = (v ← of_Z w z; Some ([v], r_square :: rest)).
Proof.
  unfold printInteger. destruct (z <? 0)%Z eqn:Hz; simpl.
  - apply Z.ltb_lt in Hz. rewrite Z2N.id by lia. rewrite Z.opp_involutive.
    by destruct (of_Z w z).
  - apply Z.ltb_ge in Hz. rewrite Z2N.id by lia. by destruct (of_Z w z).
Qed.

Lemma parseIntegers_literal_comma w z rest :
  parseIntegers w (printInteger z ++ comma :: rest)
  = (v ← of_Z w z; '(vs, rest') ← parseIntegers w rest; Some (v :: vs, rest')).
Proof.
  unfold printInteger. destruct (z <? 0)%Z eqn:Hz; simpl.
  - apply Z.ltb_lt in Hz. rewrite Z2N.id by lia. rewrite Z.opp_involutive.
    by destruct (of_Z w z).
  - apply Z.ltb_ge in Hz. rewrite Z2N.id by lia. by destruct (of_Z w z).
Qed.

(** The element parser reads back what [interleaveComma] prints. *)
Lemma parseIntegers_interleaveComma w (x : int w) (l : list (int w)) rest :
  parseIntegers w (interleaveComma (x :: l) ++ r_square :: rest)
  = Some (x :: l, r_square :: rest).
Proof.
  revert x. induction l as [|y l IH]; intros x.
  - cbn [interleaveComma]. by rewrite parseIntegers_literal, of_Z_to_Z.
  - change (interleaveComma (x :: y :: l))
      with (printInteger (to_Z x) ++ comma :: interleaveComma (y :: l)).
    rewrite <- app_assoc. cbn [app].
    rewrite parseIntegers_literal_comma, of_Z_to_Z.
    cbn -[interleaveComma parseIntegers]. by rewrite IH.
Qed.

Lemma printInteger_head z rest :
  ∃ t rest', printInteger z ++ rest = t :: rest' ∧ t ≠ r_square.
Proof. unfold printInteger. destruct (z <? 0)%Z; simpl; by do 2 eexists. Qed.

Lemma parseOptionalRSquare_integers w (x : int w) l rest ssa :
  parseOptionalRSquare
    {| tokens := interleaveComma (x :: l) ++ r_square :: rest;
       ssaValues := ssa |}
  = Some (false, {| tokens := interleaveComma (x :: l) ++ r_square :: rest;
                    ssaValues := ssa |}).
Proof.
  unfold parseOptionalRSquare. cbn [tokens].
  assert (∃ t rest', interleaveComma (x :: l) ++ r_square :: rest = t :: rest'
                     ∧ t ≠ r_square) as (t & rest' & -> & Ht).
  { destruct l; cbn [interleaveComma]; [|rewrite <- app_assoc];
      apply printInteger_head. }
  by destruct t.
Qed.

(** A bracketed list printed by [interleaveComma] parses to the list. *)
Lemma DenseArrayAttr_parse_print w (l : list (int w)) rest ssa :
  DenseArrayAttr_parse w
    {| tokens := l_square :: interleaveComma l ++ r_square :: rest;
       ssaValues := ssa |}
  = Some (l, {| tokens := rest; ssaValues := ssa |}).
Proof.
  unfold DenseArrayAttr_parse, parseLSquare, parseRSquare, bind, next, ret.
  cbn [tokens ssaValues].
  destruct l as [|x l]; [done|].
  rewrite parseOptionalRSquare_integers.
  unfold parseWithoutBraces. cbn [tokens ssaValues].
  by rewrite parseIntegers_interleaveComma.
Qed.

(** C6 (as the code has it).  For every valid [TileOp] whose source
    operand has the type that the tiled-tensor result type names as its
    original type, parsing the printed text, in a scope that defines the
    source operand, yields the same source operand, the same offsets, sizes
    and strides attributes, and the same tiled-tensor result type. *)
Theorem TileOp_print_parse_round_trip
    (op : TileOp.TileOp) (rest : list Token) (ssa : gmap string Type_) :
  TileOp.verify op = Returns success [] →
  getType (TileOp.getTensor op) = getOriginalType (TileOp.getType op) →
  ssa !! getName (TileOp.getTensor op)
  = Some (RankedTensor (getType (TileOp.getTensor op))) →
  TileOp.parse {| operands := []; attributes := []; types := [] |}
    {| tokens := TileOp.print op ++ rest; ssaValues := ssa |}
  = Some ({| operands := [asValue (TileOp.getTensor op)];
             attributes :=
               [("offsets", DenseI32ArrayAttr (TileOp.getOffsets op));
                ("sizes", DenseI32ArrayAttr (TileOp.getSizes op));
                ("strides", DenseI64ArrayAttr (TileOp.getStrides op))];
             types := [TiledTensor (TileOp.getType op)] |},
          {| tokens := rest; ssaValues := ssa |}).
Proof.
  intros _ Hty Hscope.
  unfold TileOp.parse, TileOp.print, TileOp.parseDenseIntArrayAttr,
    printValue, printType.
  rewrite <- !app_assoc. cbn [app].
  unfold bind at 1. unfold parseOperand, bind, next, ret. cbn [tokens ssaValues].
  rewrite DenseArrayAttr_parse_print.
  rewrite DenseArrayAttr_parse_print.
  rewrite DenseArrayAttr_parse_print.
  cbn [parseOptionalAttrDict tokens ssaValues].
  unfold parseColonType_TiledTensorType, bind, next, ret, fail.
  cbn [tokens ssaValues].
  unfold resolveOperand. cbn [tokens ssaValues].
  rewrite Hscope, Hty. rewrite decide_True by done.
  unfold asValue. by rewrite Hty.
Qed.

Lemma TileOp_print_parse_round_trip_witness :
  TileOp.parse Fixture.empty_state
    {| tokens := TileOp.print Fixture.tile ++ [];
       ssaValues := Fixture.scope_of (TileOp.getTensor Fixture.tile) |}
  = Some ({| operands := [asValue (TileOp.getTensor Fixture.tile)];
             attributes :=
               [("offsets", DenseI32ArrayAttr (TileOp.getOffsets Fixture.tile));
                ("sizes", DenseI32ArrayAttr (TileOp.getSizes Fixture.tile));
                ("strides",
                 DenseI64ArrayAttr (TileOp.getStrides Fixture.tile))];
             types := [TiledTensor (TileOp.getType Fixture.tile)] |},
          {| tokens := [];
             ssaValues := Fixture.scope_of (TileOp.getTensor Fixture.tile) |}).
Proof.
  apply (TileOp_print_parse_round_trip Fixture.tile []
           (Fixture.scope_of (TileOp.getTensor Fixture.tile))).
  - reflexivity.
  - reflexivity.
  - reflexivity.
Defined.

(** C6, as stated, fails: a tile of a 4-element tensor whose result type
    names an 8-element original tensor passes the verifier, and its printed
    text does not parse where the source operand is defined, because the
    parser resolves the operand against the original type; where the
    operand is not yet defined, the parsed operand has another type. *)
Lemma TileOp_round_trip_fails_on_type_mismatch :
  TileOp.verify Fixture.mismatched_tile = Returns success [] ∧
  TileOp.parse Fixture.empty_state
    {| tokens := TileOp.print Fixture.mismatched_tile;
       ssaValues :=
         Fixture.scope_of (TileOp.getTensor Fixture.mismatched_tile) |}
  = None ∧
  (operands ∘ fst <$>
     TileOp.parse Fixture.empty_state
       {| tokens := TileOp.print Fixture.mismatched_tile; ssaValues := ∅ |})
  ≠ Some [asValue (TileOp.getTensor Fixture.mismatched_tile)].
Proof. repeat split; try reflexivity. vm_compute. congruence. Qed.

(** ** The verifiers of the tiling operations *)

(** C7.  [TileOp::verify] fails when the source tensor has rank 0;
    otherwise it fails with one combined error, which names the three
    attributes together, when the length of the offsets, of the sizes or of
    the strides differs from the rank of the source; and it succeeds when
    the rank is at least 1 and the three lengths equal it. *)
Theorem TileOp_verify_spec (op : TileOp.TileOp) :
  (getRank (getType (TileOp.getTensor op)) = 0 →
   TileOp.verify op = Returns failure ["cannot tile a 0-d tensor"]) ∧
  (getRank (getType (TileOp.getTensor op)) ≠ 0 →
   length (TileOp.getOffsets op) ≠ getRank (getType (TileOp.getTensor op)) ∨
   length (TileOp.getSizes op) ≠ getRank (getType (TileOp.getTensor op)) ∨
   length (TileOp.getStrides op) ≠ getRank (getType (TileOp.getTensor op)) →
   TileOp.verify op
   = Returns failure
       ["mismatch between tensor rank and one or more of offsets/sizes/strides"])
  ∧
  (1 ≤ getRank (getType (TileOp.getTensor op)) →
   length (TileOp.getOffsets op) = getRank (getType (TileOp.getTensor op)) →
   length (TileOp.getSizes op) = getRank (getType (TileOp.getTensor op)) →
   length (TileOp.getStrides op) = getRank (getType (TileOp.getTensor op)) →
   TileOp.verify op = Returns success []).
Proof.
  unfold TileOp.verify.
  set (rank := getRank (getType (TileOp.getTensor op))).
  repeat split.
  - by intros ->.
  - intros Hrank Hlen. apply Nat.eqb_neq in Hrank. rewrite Hrank.
    assert (negb (rank =? length (TileOp.getOffsets op))
            || negb (rank =? length (TileOp.getSizes op))
            || negb (rank =? length (TileOp.getStrides op)) = true) as ->;
      [|done].
    rewrite !orb_true_iff, !negb_true_iff, !Nat.eqb_neq. lia.
  - intros Hrank Ho Hs Hst.
    destruct (rank =? 0) eqn:E; [apply Nat.eqb_eq in E; lia|].
    by rewrite Ho, Hs, Hst, Nat.eqb_refl.
Qed.

Lemma TileOp_verify_spec_witness :
  TileOp.verify Fixture.short_offsets_tile
  = Returns failure
      ["mismatch between tensor rank and one or more of offsets/sizes/strides"].
Proof.
  apply (TileOp_verify_spec Fixture.short_offsets_tile).
  - vm_compute. lia.
  - left. vm_compute. lia.
Defined.

(** C8.  [ExtractOp::verify] succeeds exactly when the result tensor has
    rank at least 1 and the number of offset operands is the rank of the
    source tiled tensor; [InsertOp::verify] succeeds exactly when the source
    tile has rank at least 1 and the number of offset operands is the rank
    of the destination tiled tensor.  A result of rank 0, or a source of
    rank 0, is rejected, and the verifiers return in every case.  The rank
    of a tiled tensor is whatever its type declares: the statement holds
    for every such rank function. *)
Theorem ExtractOp_InsertOp_verify_spec (rank : TiledTensorType → nat) :
  (∀ op : ExtractOp.ExtractOp,
     (ExtractOp.verify rank op = Returns success [] ↔
      1 ≤ getRank (getType (ExtractOp.getResult op)) ∧
      length (ExtractOp.getOffsets op) = rank (getType (ExtractOp.getSrc op)))
     ∧
     (getRank (getType (ExtractOp.getResult op)) = 0 →
      ExtractOp.verify rank op
      = Returns failure ["cannot extract a 0-d tensor"]) ∧
     (ExtractOp.verify rank op = Returns success [] ∨
      ∃ msg, ExtractOp.verify rank op = Returns failure [msg])) ∧
  (∀ op : InsertOp.InsertOp,
     (InsertOp.verify rank op = Returns success [] ↔
      1 ≤ getRank (getType (InsertOp.getSrc op)) ∧
      length (InsertOp.getOffsets op) = rank (getType (InsertOp.getDst op)))
     ∧
     (getRank (getType (InsertOp.getSrc op)) = 0 →
      InsertOp.verify rank op
      = Returns failure ["cannot insert a 0-d tensor"]) ∧
     (InsertOp.verify rank op = Returns success [] ∨
      ∃ msg, InsertOp.verify rank op = Returns failure [msg])).
Proof.
  split; intros op.
  - unfold ExtractOp.verify.
    destruct (getRank (getType (ExtractOp.getResult op))) as [|n]; cbn [Nat.eqb].
    { repeat split; try done; [lia | by right; eexists]. }
    destruct (Nat.eqb_spec (rank (getType (ExtractOp.getSrc op)))
                (length (ExtractOp.getOffsets op))) as [Heq|Hne]; cbn [negb].
    + repeat split; try done; [lia | by left].
    + repeat split; try done; [intros [_ ?]; congruence | by right; eexists].
  - unfold InsertOp.verify.
    destruct (getRank (getType (InsertOp.getSrc op))) as [|n]; cbn [Nat.eqb].
    { repeat split; try done; [lia | by right; eexists]. }
    destruct (Nat.eqb_spec (rank (getType (InsertOp.getDst op)))
                (length (InsertOp.getOffsets op))) as [Heq|Hne]; cbn [negb].
    + repeat split; try done; [lia | by left].
    + repeat split; try done; [intros [_ ?]; congruence | by right; eexists].
Qed.

Lemma ExtractOp_InsertOp_verify_spec_witness :
  ExtractOp.verify Fixture.original_rank Fixture.extract = Returns success [] ∧
  InsertOp.verify Fixture.original_rank Fixture.insert = Returns success [].
Proof.
  destruct (ExtractOp_InsertOp_verify_spec Fixture.original_rank) as [He Hi].
  split.
  - apply (He Fixture.extract). vm_compute. lia.
  - apply (Hi Fixture.insert). vm_compute. lia.
Defined.

(** ** The integer widths of the TileOp attributes *)

(** A bracketed single literal parses to the integer if it fits. *)
Lemma DenseArrayAttr_parse_literal w z rest ssa :
  DenseArrayAttr_parse w
    {| tokens := l_square :: printInteger z ++ r_square :: rest;
       ssaValues := ssa |}
  = (v ← of_Z w z; Some ([v], {| tokens := rest; ssaValues := ssa |})).
Proof.
  unfold DenseArrayAttr_parse, parseLSquare, parseRSquare, bind, next, ret.
  cbn [tokens ssaValues].
  assert (parseOptionalRSquare
            {| tokens := printInteger z ++ r_square :: rest; ssaValues := ssa |}
          = Some (false, {| tokens := printInteger z ++ r_square :: rest;
                            ssaValues := ssa |})) as ->.
  { unfold parseOptionalRSquare. cbn [tokens].
    destruct (printInteger_head z (r_square :: rest)) as (t & rest' & -> & Ht).
    by destruct t. }
  unfold parseWithoutBraces. cbn [tokens ssaValues].
  rewrite parseIntegers_literal. by destruct (of_Z w z).
Qed.

Lemma parse_tile_text result offset size stride ty ssa :
  TileOp.parse result
    {| tokens := Fixture.tile_text offset size stride ty; ssaValues := ssa |}
  = (o ← of_Z 32 offset; s ← of_Z 32 size; t ← of_Z 64 stride;
     '(v, st') ← resolveOperand "arg0" (RankedTensor (getOriginalType ty))
                   {| tokens := []; ssaValues := ssa |};
     Some (addTypes (TiledTensor ty)
             (addAttribute "strides" (DenseI64ArrayAttr [t])
                (addAttribute "sizes" (DenseI32ArrayAttr [s])
                   (addAttribute "offsets" (DenseI32ArrayAttr [o])
                      (addOperand v (addAttributes [] result))))), st')).
Proof.
  unfold TileOp.parse, Fixture.tile_text, TileOp.parseDenseIntArrayAttr.
  rewrite <- ?app_assoc. cbn [app].
  unfold bind at 1. unfold parseOperand, bind, next, ret. cbn [tokens ssaValues].
  rewrite DenseArrayAttr_parse_literal.
  destruct (of_Z 32 offset) as [o|]; [|done]. cbn [mbind option_bind].
  rewrite DenseArrayAttr_parse_literal.
  destruct (of_Z 32 size) as [s|]; [|done]. cbn [mbind option_bind].
  rewrite DenseArrayAttr_parse_literal.
  destruct (of_Z 64 stride) as [t|]; [|done]. cbn [mbind option_bind].
  cbn [parseOptionalAttrDict tokens ssaValues].
  unfold parseColonType_TiledTensorType, bind, next, ret, fail.
  cbn [tokens ssaValues].
  by destruct (resolveOperand _ _ _) as [[v st']|].
Qed.

Lemma TileOp_parse_inv result st r st' :
  TileOp.parse result st = Some (r, st') →
  ∃ dict offsets sizes strides,
    attributes r
    = attributes result ++ dict
      ++ [("offsets", DenseI32ArrayAttr offsets);
          ("sizes", DenseI32ArrayAttr sizes);
          ("strides", DenseI64ArrayAttr strides)].
Proof.
  unfold TileOp.parse, bind.
  destruct (parseOperand st) as [[src st1]|]; [|done].
  destruct (TileOp.parseDenseIntArrayAttr 32 st1) as [[offsets st2]|]; [|done].
  destruct (TileOp.parseDenseIntArrayAttr 32 st2) as [[sizes st3]|]; [|done].
  destruct (TileOp.parseDenseIntArrayAttr 64 st3) as [[strides st4]|]; [|done].
  destruct (parseOptionalAttrDict st4) as [[dict st5]|]; [|done].
  destruct (parseColonType_TiledTensorType st5) as [[ty st6]|]; [|done].
  destruct (resolveOperand _ _ st6) as [[v st7]|]; [|done].
  unfold ret. intros [= <- <-].
  exists dict, offsets, sizes, strides. cbn. by rewrite <- !app_assoc.
Qed.

(** C10.  The offsets and sizes of a [TileOp] are 32-bit integers and its
    strides 64-bit integers.  Every constructed operation and every parsed
    one holds offsets and sizes representable in 32 bits and strides
    representable in 64 bits; the parser rejects an offset or a size
    literal that does not fit 32 bits, and accepts every stride literal
    that fits 64 bits, also one such as 2^31 that does not fit 32 bits. *)
Theorem TileOp_integer_widths :
  (∀ op : TileOp.TileOp,
     Forall (fits 32) (to_Z <$> TileOp.getOffsets op) ∧
     Forall (fits 32) (to_Z <$> TileOp.getSizes op) ∧
     Forall (fits 64) (to_Z <$> TileOp.getStrides op)) ∧
  (∀ result st r st',
     TileOp.parse result st = Some (r, st') →
     ∃ dict offsets sizes strides,
       attributes r
       = attributes result ++ dict
         ++ [("offsets", DenseI32ArrayAttr offsets);
             ("sizes", DenseI32ArrayAttr sizes);
             ("strides", DenseI64ArrayAttr strides)] ∧
       Forall (fits 32) (to_Z <$> offsets) ∧
       Forall (fits 32) (to_Z <$> sizes) ∧
       Forall (fits 64) (to_Z <$> strides)) ∧
  (∀ z ty result ssa,
     ¬ fits 32 z →
     TileOp.parse result
       {| tokens := Fixture.tile_text z 1 1 ty; ssaValues := ssa |} = None ∧
     TileOp.parse result
       {| tokens := Fixture.tile_text 0 z 1 ty; ssaValues := ssa |} = None) ∧
  (∀ z ty result,
     fits 64 z →
     ∃ r st' v,
       TileOp.parse result
         {| tokens := Fixture.tile_text 0 1 z ty; ssaValues := ∅ |}
       = Some (r, st') ∧
       to_Z v = z ∧
       ("strides", DenseI64ArrayAttr [v]) ∈ attributes r) ∧
  (fits 64 (2 ^ 31) ∧ ¬ fits 32 (2 ^ 31)).
Proof.
  split; [|split; [|split; [|split]]].
  - intros op. auto using fits_all.
  - intros result st r st' Hparse.
    destruct (TileOp_parse_inv _ _ _ _ Hparse)
      as (dict & offsets & sizes & strides & Hattrs).
    exists dict, offsets, sizes, strides. auto using fits_all.
  - intros z ty result ssa Hz. apply of_Z_None in Hz.
    rewrite !parse_tile_text, Hz. split; [done|].
    by destruct (of_Z 32 0).
  - intros z ty result Hz.
    destruct (of_Z_fits 64 z Hz) as (v & Hv & Hvz).
    rewrite parse_tile_text, Hv.
    destruct (of_Z 32 0) as [o|] eqn:Ho; [|done].
    destruct (of_Z 32 1) as [s|] eqn:Hs; [|done].
    cbn [mbind option_bind]. unfold resolveOperand. cbn [ssaValues tokens].
    rewrite lookup_empty. do 2 eexists. exists v. split; [done|].
    split; [done|]. cbn. rewrite !elem_of_app, !list_elem_of_singleton. auto.
  - split; [by compute|]. unfold fits. intros [_ H]. by compute in H.
Qed.

Lemma TileOp_integer_widths_witness :
  ∃ r st' v,
    TileOp.parse Fixture.empty_state
      {| tokens := Fixture.tile_text 0 1 (2 ^ 31) Fixture.tiled;
         ssaValues := ∅ |}
    = Some (r, st') ∧
    to_Z v = (2 ^ 31)%Z ∧
    ("strides", DenseI64ArrayAttr [v]) ∈ attributes r.
Proof.
  destruct TileOp_integer_widths as (_ & _ & _ & Hstrides & Hfits & _).
  apply (Hstrides (2 ^ 31)%Z Fixture.tiled Fixture.empty_state Hfits).
Defined.

(** * Further properties of the code *)

(** ** SparseDotOp: which test reports which violation *)

Section verify_diagnoses.
Context (context : MLIRContext) (op : Operation).
Context (va vb vc vm : Value) (a b c m : ShapedType).
Context (Hoperands : getOperands op = [va; vb; vc; vm]).
Context (HA : Spec.TensorOrMemDesc (typeOf va) a).
Context (HB : Spec.TensorOrMemDesc (typeOf vb) b).
Context (HC : typeOf vc = RankedTensor c).
Context (HM : typeOf vm = RankedTensor m).
Context (Htensors : Spec.first_type_or_rank_error a b c = None).

Ltac to_dependency_tests :=
  generalize Htensors;
  unfold Spec.first_type_or_rank_error, Spec.supported_AB, getRank;
  unfold SparseDotOp.verify;
  rewrite Hoperands; cbn [operand_at lookup list_lookup];
  rewrite !bind_mret; unfold compose;
  rewrite (cast_TensorOrMemDesc_view _ _ HA), bind_mret;
  rewrite (cast_TensorOrMemDesc_view _ _ HB), bind_mret;
  rewrite HC, HM; cbn [cast_RankedTensorType]; rewrite !bind_mret;
  rewrite <- !negb_orb;
  destruct (negb (isF16 _ || isBF16 _)); [done|];
  destruct (negb (length (getShape a) =? 2)); [done|];
  destruct (negb (isF16 _ || isBF16 _)); [done|];
  destruct (negb (length (getShape b) =? 2)); [done|];
  destruct (negb (isF32 _)); [done|];
  destruct (negb (length (getShape c) =? 2)); [done|];
  intros _;
  unfold SparseDotOp.kContractingFactor,
    SparseDotOp.kMetadataElementsPerPackedValue, mul_i64.

(** X2.  With the element types and ranks of A, B and C in order and the
    product A.shape[1] * 2 representable, an operation that breaks the row
    relation, the column relation or the doubling relation is rejected with
    the one diagnostic "operand shape dimensions are incorrect", whichever
    of the three is broken. *)
Theorem SparseDotOp_verify_shape_mismatch :
  fits 64 (dim (getShape a) 1 * 2) →
  ¬ (Spec.row_match a c ∧ Spec.column_match b c ∧ Spec.doubling a b) →
  SparseDotOp.verify context op
  = Returns failure ["operand shape dimensions are incorrect"].
Proof.
  intros Hfits Hbroken. to_dependency_tests.
  rewrite wrap64_fits by done.
  destruct (Z.eqb_spec (dim (getShape a) 0) (dim (getShape c) 0)); [|done].
  destruct (Z.eqb_spec (dim (getShape b) 1) (dim (getShape c) 1)); [|done].
  destruct (Z.eqb_spec (dim (getShape b) 0) (dim (getShape a) 1 * 2));
    [|done].
  by destruct Hbroken.
Qed.

(** X3.  With the element types and ranks of A, B and C in order and the
    three shape relations satisfied, A and B of different element types
    (one float16, the other bfloat16) are rejected with "operand element
    types do not match": the test comes after the shape test. *)
Theorem SparseDotOp_verify_element_mismatch :
  Spec.row_match a c → Spec.column_match b c → Spec.doubling a b →
  getElementType a ≠ getElementType b →
  SparseDotOp.verify context op
  = Returns failure ["operand element types do not match"].
Proof.
  unfold Spec.row_match, Spec.column_match, Spec.doubling.
  intros Hrow Hcol Hdbl Hne. to_dependency_tests.
  rewrite <- Hdbl, wrap64_fits by apply dim_fits.
  rewrite <- Hrow, <- Hcol, !Z.eqb_refl. cbn [negb orb].
  by rewrite bool_decide_eq_false_2.
Qed.

(** X4.  Past the tests on A, B and C: metadata that is not of a 16-bit
    integer element type or not of rank 2 is rejected with "sparse metadata
    tensor is invalid"; well-typed metadata whose shape breaks the row or
    the column relation to A (the product metadata.shape[1] * 8 being
    representable) is rejected with "sparse metadata shape dimensions are
    incorrect". *)
Theorem SparseDotOp_verify_metadata_errors :
  Spec.row_match a c → Spec.column_match b c → Spec.doubling a b →
  getElementType a = getElementType b →
  (¬ Spec.integer16 (getElementType m) ∨ getRank m ≠ 2 →
   SparseDotOp.verify context op
   = Returns failure ["sparse metadata tensor is invalid"]) ∧
  (Spec.integer16 (getElementType m) → getRank m = 2 →
   fits 64 (dim (getShape m) 1 * 8) →
   ¬ (Spec.metadata_rows m a ∧ Spec.metadata_columns m a) →
   SparseDotOp.verify context op
   = Returns failure ["sparse metadata shape dimensions are incorrect"]).
Proof.
  unfold Spec.row_match, Spec.column_match, Spec.doubling,
    Spec.metadata_rows, Spec.metadata_columns, getRank.
  intros Hrow Hcol Hdbl Heq. split.
  - intros Hbad. to_dependency_tests.
    rewrite <- Hdbl, wrap64_fits by apply dim_fits.
    rewrite <- Hrow, <- Hcol, !Z.eqb_refl. cbn [negb orb].
    rewrite bool_decide_eq_true_2 by done. cbn [negb].
    destruct (isInteger 16 (getElementType m)) eqn:Hint; [|done].
    destruct (Nat.eqb_spec (length (getShape m)) 2); [|done].
    apply integer16_isInteger in Hint. by destruct Hbad.
  - intros Hint Hrank Hfits Hbroken. to_dependency_tests.
    rewrite <- Hdbl, wrap64_fits by apply dim_fits.
    rewrite <- Hrow, <- Hcol, !Z.eqb_refl. cbn [negb orb].
    rewrite bool_decide_eq_true_2 by done. cbn [negb].
    rewrite (isInteger_integer16 _ Hint), Hrank. cbn [negb orb Nat.eqb].
    rewrite (wrap64_fits (dim (getShape m) 1 * 8)) by done.
    destruct (Z.eqb_spec (dim (getShape m) 0) (dim (getShape a) 0)); [|done].
    destruct (Z.eqb_spec (dim (getShape m) 1 * 8) (dim (getShape a) 1));
      [|done].
    by destruct Hbroken.
Qed.

End verify_diagnoses.

(** X1.  The verifier accepts only what the relations allow: when it
    returns success and neither product overflows 64 bits, the operand
    tuple satisfies the element-type, rank and shape relations, and the
    encodings of A and B are both absent or both present. *)
Theorem SparseDotOp_verify_sound
    (context : MLIRContext) (op : Operation)
    (va vb vc vm : Value) (a b c m : ShapedType) (diagnostics : list string) :
  getOperands op = [va; vb; vc; vm] →
  Spec.TensorOrMemDesc (typeOf va) a →
  Spec.TensorOrMemDesc (typeOf vb) b →
  typeOf vc = RankedTensor c →
  typeOf vm = RankedTensor m →
  fits 64 (dim (getShape a) 1 * 2) →
  fits 64 (dim (getShape m) 1 * 8) →
  SparseDotOp.verify context op = Returns success diagnostics →
  Spec.operand_types a b c m ∧ Spec.shape_relations a b c m ∧
  (getEncoding a = None ↔ getEncoding b = None).
Proof.
  intros Hops HA HB HC HM Hfa Hfm Hok.
  destruct (Spec.operand_checks a b c m) eqn:Hchecks.
  - destruct (operand_checks_relations a b c m Hfa Hfm Hchecks) as [Hty Hsh].
    split; [done|split; [done|split]].
    + intros Ha. revert Hok.
      rewrite (verify_encoding_stage context op va vb vc vm a b c m) by done.
      rewrite Ha. by destruct (getEncoding b).
    + intros Hb. revert Hok.
      rewrite (verify_encoding_stage context op va vb vc vm a b c m) by done.
      rewrite Hb. by destruct (getEncoding a).
  - destruct (verify_operand_checks_fail context op va vb vc vm a b c m)
      as [msg Hmsg]; try done.
    by rewrite Hmsg in Hok.
Qed.

Lemma SparseDotOp_verify_sound_witness :
  Spec.operand_types Fixture.A Fixture.B Fixture.C Fixture.metadata ∧
  Spec.shape_relations Fixture.A Fixture.B Fixture.C Fixture.metadata ∧
  (getEncoding Fixture.A = None ↔ getEncoding Fixture.B = None).
Proof.
  apply (SparseDotOp_verify_sound Fixture.no_layout
           (Fixture.sparse_dot Fixture.A Fixture.B Fixture.C Fixture.metadata)
           (Fixture.value "a" Fixture.A) (Fixture.value "b" Fixture.B)
           (Fixture.value "c" Fixture.C) (Fixture.value "meta" Fixture.metadata)
           Fixture.A Fixture.B Fixture.C Fixture.metadata []).
  - reflexivity.
  - constructor.
  - constructor.
  - reflexivity.
  - reflexivity.
  - by vm_compute.
  - by vm_compute.
  - reflexivity.
Defined.

Lemma SparseDotOp_verify_shape_mismatch_witness :
  SparseDotOp.verify Fixture.no_layout
    (Fixture.sparse_dot Fixture.A Fixture.B_15 Fixture.C Fixture.metadata)
  = Returns failure ["operand shape dimensions are incorrect"].
Proof.
  apply (SparseDotOp_verify_shape_mismatch Fixture.no_layout
           (Fixture.sparse_dot Fixture.A Fixture.B_15 Fixture.C
              Fixture.metadata)
           (Fixture.value "a" Fixture.A) (Fixture.value "b" Fixture.B_15)
           (Fixture.value "c" Fixture.C) (Fixture.value "meta" Fixture.metadata)
           Fixture.A Fixture.B_15 Fixture.C Fixture.metadata).
  - reflexivity.
  - constructor.
  - constructor.
  - reflexivity.
  - reflexivity.
  - reflexivity.
  - by vm_compute.
  - intros (_ & _ & H). vm_compute in H. discriminate.
Defined.

Lemma SparseDotOp_verify_element_mismatch_witness :
  SparseDotOp.verify Fixture.no_layout
    (Fixture.sparse_dot Fixture.A_f16 Fixture.B Fixture.C Fixture.metadata)
  = Returns failure ["operand element types do not match"].
Proof.
  apply (SparseDotOp_verify_element_mismatch Fixture.no_layout
           (Fixture.sparse_dot Fixture.A_f16 Fixture.B Fixture.C
              Fixture.metadata)
           (Fixture.value "a" Fixture.A_f16) (Fixture.value "b" Fixture.B)
           (Fixture.value "c" Fixture.C) (Fixture.value "meta" Fixture.metadata)
           Fixture.A_f16 Fixture.B Fixture.C Fixture.metadata).
  - reflexivity.
  - constructor.
  - constructor.
  - reflexivity.
  - reflexivity.
  - reflexivity.
  - reflexivity.
  - reflexivity.
  - reflexivity.
  - discriminate.
Defined.

Lemma SparseDotOp_verify_metadata_errors_witness :
  SparseDotOp.verify Fixture.no_layout
    (Fixture.sparse_dot Fixture.A Fixture.B Fixture.C Fixture.metadata_i32)
  = Returns failure ["sparse metadata tensor is invalid"].
Proof.
  apply (SparseDotOp_verify_metadata_errors Fixture.no_layout
           (Fixture.sparse_dot Fixture.A Fixture.B Fixture.C
              Fixture.metadata_i32)
           (Fixture.value "a" Fixture.A) (Fixture.value "b" Fixture.B)
           (Fixture.value "c" Fixture.C)
           (Fixture.value "meta" Fixture.metadata_i32)
           Fixture.A Fixture.B Fixture.C Fixture.metadata_i32).
  - reflexivity.
  - constructor.
  - constructor.
  - reflexivity.
  - reflexivity.
  - reflexivity.
  - reflexivity.
  - reflexivity.
  - reflexivity.
  - reflexivity.
  - left. intros [s H]. discriminate H.
Defined.

(** ** SparseDotOp: type inference *)

(** X5.  Type inference does not look at B's encoding when A has none:
    for an operation that passes the operand tests, with A unencoded and B
    encoded, [inferReturnTypes] succeeds with C's type while [verify]
    rejects the operation for mismatching encodings. *)
Theorem SparseDotOp_inference_weaker_than_verify
    (context : MLIRContext) (location : option Location) (op : Operation)
    (va vb vc vm : Value) (a b c m : ShapedType) (bEncoding : Attribute) :
  getOperands op = [va; vb; vc; vm] →
  Spec.TensorOrMemDesc (typeOf va) a →
  Spec.TensorOrMemDesc (typeOf vb) b →
  typeOf vc = RankedTensor c →
  typeOf vm = RankedTensor m →
  Spec.operand_checks a b c m = true →
  getEncoding a = None →
  getEncoding b = Some bEncoding →
  SparseDotOp.inferReturnTypes context location (getOperands op) []
  = Returns (success, [typeOf vc]) [] ∧
  SparseDotOp.verify context op
  = Returns failure ["mismatching encoding between A and B operands"].
Proof.
  intros Hops HA HB HC HM Hchecks Ha Hb. split.
  - rewrite (inferReturnTypes_encoding_stage context location _ []
               va vb vc [vm] a b c) by done.
    by rewrite Ha, HC.
  - rewrite (verify_encoding_stage context op va vb vc vm a b c m) by done.
    by rewrite Ha, Hb.
Qed.

Lemma SparseDotOp_inference_weaker_than_verify_witness :
  SparseDotOp.inferReturnTypes Fixture.no_layout None
    (getOperands
       (Fixture.sparse_dot Fixture.A Fixture.B_encoded Fixture.C
          Fixture.metadata)) []
  = Returns (success, [RankedTensor Fixture.C]) [] ∧
  SparseDotOp.verify Fixture.no_layout
    (Fixture.sparse_dot Fixture.A Fixture.B_encoded Fixture.C Fixture.metadata)
  = Returns failure ["mismatching encoding between A and B operands"].
Proof.
  apply (SparseDotOp_inference_weaker_than_verify Fixture.no_layout None
           (Fixture.sparse_dot Fixture.A Fixture.B_encoded Fixture.C
              Fixture.metadata)
           (Fixture.value "a" Fixture.A) (Fixture.value "b" Fixture.B_encoded)
           (Fixture.value "c" Fixture.C) (Fixture.value "meta" Fixture.metadata)
           Fixture.A Fixture.B_encoded Fixture.C Fixture.metadata
           (Fixture.dot_operand "1")).
  - reflexivity.
  - constructor.
  - constructor.
  - reflexivity.
  - reflexivity.
  - reflexivity.
  - reflexivity.
  - reflexivity.
Defined.

(** X6.  On the encoded path type inference succeeds exactly when both
    invocations of the layout capability succeed, and then reports the
    diagnostics of both; when the first invocation fails the result carries
    the diagnostics of the first alone: the second is not consulted. *)
Theorem SparseDotOp_inferReturnTypes_encoded
    (context : MLIRContext) (location : option Location)
    (operands : list Value) (inferred : list Type_)
    (va vb vc : Value) (rest : list Value) (a b c : ShapedType)
    (aEnc bEnc retEnc : Attribute) (interface : DialectInferLayoutInterface) :
  operands = va :: vb :: vc :: rest →
  Spec.TensorOrMemDesc (typeOf va) a →
  Spec.TensorOrMemDesc (typeOf vb) b →
  typeOf vc = RankedTensor c →
  getEncoding a = Some aEnc →
  getEncoding b = Some bEnc →
  getEncoding c = Some retEnc →
  getLayoutInterface context (getDialect retEnc) = Some interface →
  (∀ diagnostics,
     SparseDotOp.inferReturnTypes context location operands inferred
     = Returns (success, inferred ++ [typeOf vc]) diagnostics ↔
     (inferDotOpEncoding interface aEnc 0 retEnc location).1 = success ∧
     (inferDotOpEncoding interface bEnc 1 retEnc location).1 = success ∧
     diagnostics
     = (inferDotOpEncoding interface aEnc 0 retEnc location).2
       ++ (inferDotOpEncoding interface bEnc 1 retEnc location).2) ∧
  ((inferDotOpEncoding interface aEnc 0 retEnc location).1 = failure →
   SparseDotOp.inferReturnTypes context location operands inferred
   = Returns (failure, inferred ++ [typeOf vc])
       (inferDotOpEncoding interface aEnc 0 retEnc location).2).
Proof.
  intros Hops HA HB HC Ha Hb Hc Hi.
  rewrite (inferReturnTypes_encoding_stage context location operands inferred
             va vb vc rest a b c) by done.
  rewrite Ha, Hb, Hc, HC. cbn zeta. rewrite Hi.
  unfold call, mbind, Outcome_bind, mret, Outcome_ret.
  destruct (inferDotOpEncoding interface aEnc 0 retEnc location) as [r0 d0].
  destruct (inferDotOpEncoding interface bEnc 1 retEnc location) as [r1 d1].
  cbn [fst snd]. split.
  - intros diagnostics. destruct r0, r1; cbn [failed]; rewrite ?app_nil_r.
    + split; [by intros [= <-] | by intros (_ & _ & ->)].
    + split; [intros [= ?] | intros (_ & ? & _)]; done.
    + split; [intros [= ?] | intros (? & _ & _)]; done.
    + split; [intros [= ?] | intros (? & _ & _)]; done.
  - intros ->. cbn [failed]. by rewrite app_nil_r.
Qed.

Lemma SparseDotOp_inferReturnTypes_encoded_witness :
  SparseDotOp.inferReturnTypes (Fixture.layout success success success) None
    (getOperands
       (Fixture.sparse_dot Fixture.A_encoded Fixture.B_encoded
          Fixture.C_encoded Fixture.metadata)) []
  = Returns (success, [] ++ [RankedTensor Fixture.C_encoded]) [].
Proof.
  apply (SparseDotOp_inferReturnTypes_encoded
           (Fixture.layout success success success) None _ []
           (Fixture.value "a" Fixture.A_encoded)
           (Fixture.value "b" Fixture.B_encoded)
           (Fixture.value "c" Fixture.C_encoded)
           [Fixture.value "meta" Fixture.metadata]
           Fixture.A_encoded Fixture.B_encoded Fixture.C_encoded
           (Fixture.dot_operand "0") (Fixture.dot_operand "1") Fixture.blocked
           (Fixture.layout_interface success success success)
           eq_refl (Spec.tensor_view _) (Spec.tensor_view _) eq_refl eq_refl
           eq_refl eq_refl eq_refl).
  repeat split; reflexivity.
Defined.

(** ** TileOp: what the parser and the verifier guarantee *)

(** The text of a tile parses up to the resolution of its source operand
    against the original type. *)
Lemma TileOp_parse_print_resolve (op : TileOp.TileOp) rest ssa :
  TileOp.parse {| operands := []; attributes := []; types := [] |}
    {| tokens := TileOp.print op ++ rest; ssaValues := ssa |}
  = ('(v, st') ← resolveOperand (getName (TileOp.getTensor op))
                   (RankedTensor (getOriginalType (TileOp.getType op)))
                   {| tokens := rest; ssaValues := ssa |};
     Some ({| operands := [v];
              attributes :=
                [("offsets", DenseI32ArrayAttr (TileOp.getOffsets op));
                 ("sizes", DenseI32ArrayAttr (TileOp.getSizes op));
                 ("strides", DenseI64ArrayAttr (TileOp.getStrides op))];
              types := [TiledTensor (TileOp.getType op)] |}, st')).
Proof.
  unfold TileOp.parse, TileOp.print, TileOp.parseDenseIntArrayAttr,
    printValue, printType.
  rewrite <- !app_assoc. cbn [app].
  unfold bind at 1. unfold parseOperand, bind, next, ret. cbn [tokens ssaValues].
  rewrite !DenseArrayAttr_parse_print.
  cbn [parseOptionalAttrDict tokens ssaValues].
  unfold parseColonType_TiledTensorType, bind, next, ret, fail.
  cbn [tokens ssaValues].
  by destruct (resolveOperand _ _ _) as [[v st']|].
Qed.

(** X7.  [TileOp::verify] always returns, with no diagnostic on success
    and one on failure; when it succeeds the source has rank at least 1 and
    the offsets, sizes and strides each have as many entries as the source
    has dimensions (so none of them is empty). *)
Theorem TileOp_verify_success_inv (op : TileOp.TileOp) :
  (TileOp.verify op = Returns success [] ∨
   ∃ msg, TileOp.verify op = Returns failure [msg]) ∧
  (∀ diagnostics,
     TileOp.verify op = Returns success diagnostics →
     1 ≤ getRank (getType (TileOp.getTensor op)) ∧
     length (TileOp.getOffsets op) = getRank (getType (TileOp.getTensor op)) ∧
     length (TileOp.getSizes op) = getRank (getType (TileOp.getTensor op)) ∧
     length (TileOp.getStrides op) = getRank (getType (TileOp.getTensor op))).
Proof.
  unfold TileOp.verify.
  set (rank := getRank (getType (TileOp.getTensor op))).
  destruct (Nat.eqb_spec rank 0) as [H0|H0].
  { split; [right; by eexists | done]. }
  destruct (Nat.eqb_spec rank (length (TileOp.getOffsets op)));
    [|split; [right; by eexists | done]].
  destruct (Nat.eqb_spec rank (length (TileOp.getSizes op)));
    [|split; [right; by eexists | done]].
  destruct (Nat.eqb_spec rank (length (TileOp.getStrides op)));
    [|split; [right; by eexists | done]].
  cbn. split; [by left|]. intros _ _. lia.
Qed.

Lemma TileOp_verify_success_inv_witness :
  1 ≤ getRank (getType (TileOp.getTensor Fixture.tile)) ∧
  length (TileOp.getOffsets Fixture.tile)
  = getRank (getType (TileOp.getTensor Fixture.tile)) ∧
  length (TileOp.getSizes Fixture.tile)
  = getRank (getType (TileOp.getTensor Fixture.tile)) ∧
  length (TileOp.getStrides Fixture.tile)
  = getRank (getType (TileOp.getTensor Fixture.tile)).
Proof.
  apply (proj2 (TileOp_verify_success_inv Fixture.tile) []). reflexivity.
Defined.

Lemma resolveOperand_inv name ty st v st' :
  resolveOperand name ty st = Some (v, st') →
  v = {| getName := name; getType := ty |} ∧
  tokens st' = tokens st ∧
  ssaValues st' !! name = Some ty ∧
  ssaValues st ⊆ ssaValues st'.
Proof.
  unfold resolveOperand. destruct (ssaValues st !! name) as [ty'|] eqn:E.
  - destruct (decide (ty' = ty)) as [->|]; [|done]. by intros [= <- <-].
  - intros [= <- <-]. cbn. repeat split; try done.
    + by rewrite lookup_insert_eq.
    + by apply insert_subseteq.
Qed.

(** X8.  Whatever text [TileOp::parse] accepts, it appends one operand
    and one result type, the operand has the original type of that tiled
    tensor type, the scope after parsing defines the operand's name with
    that type, and no name defined before is lost or redefined. *)
Theorem TileOp_parse_operand_type result st r st' :
  TileOp.parse result st = Some (r, st') →
  ∃ v ty,
    operands r = operands result ++ [v] ∧
    types r = types result ++ [TiledTensor ty] ∧
    typeOf v = RankedTensor (getOriginalType ty) ∧
    ssaValues st' !! getName v = Some (typeOf v) ∧
    ssaValues st ⊆ ssaValues st'.
Proof.
  unfold TileOp.parse, bind.
  destruct (parseOperand st) as [[src st1]|] eqn:E1; [|done].
  destruct (TileOp.parseDenseIntArrayAttr 32 st1) as [[offsets st2]|] eqn:E2;
    [|done].
  destruct (TileOp.parseDenseIntArrayAttr 32 st2) as [[sizes st3]|] eqn:E3;
    [|done].
  destruct (TileOp.parseDenseIntArrayAttr 64 st3) as [[strides st4]|] eqn:E4;
    [|done].
  destruct (parseOptionalAttrDict st4) as [[dict st5]|] eqn:E5; [|done].
  destruct (parseColonType_TiledTensorType st5) as [[ty st6]|] eqn:E6; [|done].
  destruct (resolveOperand _ _ st6) as [[v st7]|] eqn:E7; [|done].
  unfold ret. intros [= <- <-].
  apply resolveOperand_inv in E7 as (-> & _ & Hbound & Hsub).
  exists {| getName := src; getType := RankedTensor (getOriginalType ty) |}, ty.
  cbn. repeat split; try done.
  assert (ssaValues st6 = ssaValues st) as <-; [|done].
  clear Hbound Hsub.
  assert (∀ w s x s', TileOp.parseDenseIntArrayAttr w s = Some (x, s') →
                      ssaValues s' = ssaValues s) as Hdense.
  { intros w s x s'.
    unfold TileOp.parseDenseIntArrayAttr, DenseArrayAttr_parse, parseLSquare,
      parseRSquare, parseOptionalRSquare, parseWithoutBraces, bind, next, ret,
      fail.
    destruct (tokens s) as [|[] ts]; try done. cbn [tokens ssaValues].
    destruct ts as [|[] ts']; cbn [tokens ssaValues]; try by intros [= _ <-].
    all: destruct (parseIntegers w _) as [[vs [|[] rest]]|];
      cbn; try done; by intros [= _ <-]. }
  apply Hdense in E2, E3, E4.
  assert (ssaValues st1 = ssaValues st) as H1.
  { revert E1. unfold parseOperand, bind, next, ret, fail.
    destruct (tokens st) as [|[] ?]; try done. by intros [= _ <-]. }
  assert (ssaValues st5 = ssaValues st4) as H5.
  { revert E5. unfold parseOptionalAttrDict.
    destruct (tokens st4) as [|[] ?]; by intros [= _ <-]. }
  assert (ssaValues st6 = ssaValues st5) as H6.
  { revert E6. unfold parseColonType_TiledTensorType, bind, next, ret, fail.
    destruct (tokens st5) as [|[] [|[] ?]]; try done. cbn.
    destruct t; try done. by intros [= _ <-]. }
  congruence.
Qed.

Lemma TileOp_parse_operand_type_witness :
  ∃ v ty,
    operands Fixture.tile_parsed = operands Fixture.empty_state ++ [v] ∧
    types Fixture.tile_parsed
    = types Fixture.empty_state ++ [TiledTensor ty] ∧
    typeOf v = RankedTensor (getOriginalType ty) ∧
    ssaValues Fixture.tile_consumed !! getName v = Some (typeOf v) ∧
    ssaValues Fixture.tile_input ⊆ ssaValues Fixture.tile_consumed.
Proof.
  apply (TileOp_parse_operand_type Fixture.empty_state Fixture.tile_input
           Fixture.tile_parsed Fixture.tile_consumed).
  reflexivity.
Defined.

(** X9.  Where the source operand's name is not yet defined, the printed
    text of any [TileOp] parses: the operand becomes a forward reference of
    the original type of the tiled tensor type, the scope is extended with
    it, and offsets, sizes, strides and result type are read back. *)
Theorem TileOp_print_parse_forward_reference
    (op : TileOp.TileOp) (rest : list Token) (ssa : gmap string Type_) :
  ssa !! getName (TileOp.getTensor op) = None →
  TileOp.parse {| operands := []; attributes := []; types := [] |}
    {| tokens := TileOp.print op ++ rest; ssaValues := ssa |}
  = Some ({| operands :=
               [{| getName := getName (TileOp.getTensor op);
                   getType :=
                     RankedTensor (getOriginalType (TileOp.getType op)) |}];
             attributes :=
               [("offsets", DenseI32ArrayAttr (TileOp.getOffsets op));
                ("sizes", DenseI32ArrayAttr (TileOp.getSizes op));
                ("strides", DenseI64ArrayAttr (TileOp.getStrides op))];
             types := [TiledTensor (TileOp.getType op)] |},
          {| tokens := rest;
             ssaValues :=
               <[getName (TileOp.getTensor op) :=
                   RankedTensor (getOriginalType (TileOp.getType op))]> ssa |}).
Proof.
  intros Hfree. rewrite TileOp_parse_print_resolve.
  unfold resolveOperand. cbn [ssaValues tokens]. by rewrite Hfree.
Qed.

Lemma TileOp_print_parse_forward_reference_witness :
  TileOp.parse Fixture.empty_state
    {| tokens := TileOp.print Fixture.mismatched_tile ++ []; ssaValues := ∅ |}
  = Some ({| operands :=
               [{| getName := "arg0";
                   getType :=
                     RankedTensor
                       (getOriginalType
                          (TileOp.getType Fixture.mismatched_tile)) |}];
             attributes :=
               [("offsets",
                 DenseI32ArrayAttr (TileOp.getOffsets Fixture.mismatched_tile));
                ("sizes",
                 DenseI32ArrayAttr (TileOp.getSizes Fixture.mismatched_tile));
                ("strides",
                 DenseI64ArrayAttr (TileOp.getStrides Fixture.mismatched_tile))];
             types := [TiledTensor (TileOp.getType Fixture.mismatched_tile)] |},
          {| tokens := [];
             ssaValues :=
               <["arg0" :=
                   RankedTensor
                     (getOriginalType
                        (TileOp.getType Fixture.mismatched_tile))]> ∅ |}).
Proof.
  apply (TileOp_print_parse_forward_reference Fixture.mismatched_tile [] ∅).
  reflexivity.
Defined.

(** X10.  Where the scope defines the source operand with its type and
    that type is not the original type of the tiled tensor result type, the
    printed text of the [TileOp] does not parse. *)
Theorem TileOp_print_parse_type_mismatch
    (op : TileOp.TileOp) (rest : list Token) (ssa : gmap string Type_) :
  ssa !! getName (TileOp.getTensor op)
  = Some (RankedTensor (getType (TileOp.getTensor op))) →
  getType (TileOp.getTensor op) ≠ getOriginalType (TileOp.getType op) →
  TileOp.parse {| operands := []; attributes := []; types := [] |}
    {| tokens := TileOp.print op ++ rest; ssaValues := ssa |}
  = None.
Proof.
  intros Hscope Hne. rewrite TileOp_parse_print_resolve.
  unfold resolveOperand. cbn [ssaValues tokens]. rewrite Hscope.
  rewrite decide_False; [done|]. by intros [= ?].
Qed.

Lemma TileOp_print_parse_type_mismatch_witness :
  TileOp.parse Fixture.empty_state
    {| tokens := TileOp.print Fixture.mismatched_tile ++ [];
       ssaValues :=
         Fixture.scope_of (TileOp.getTensor Fixture.mismatched_tile) |}
  = None.
Proof.
  apply (TileOp_print_parse_type_mismatch Fixture.mismatched_tile []
           (Fixture.scope_of (TileOp.getTensor Fixture.mismatched_tile))).
  - reflexivity.
  - discriminate.
Defined.



(** X12.  [parseDenseIntArrayAttr] reads back every bracketed list that
    [interleaveComma] prints, the empty list included, and consumes exactly
    that text; it accepts a bracketed literal exactly when the literal fits
    the element width; it fails on text that does not open with a square
    bracket and on the end of the input. *)
Theorem parseDenseIntArrayAttr_brackets (w : Z) :
  (∀ (l : list (int w)) rest ssa,
     TileOp.parseDenseIntArrayAttr w
       {| tokens := l_square :: interleaveComma l ++ r_square :: rest;
          ssaValues := ssa |}
     = Some (l, {| tokens := rest; ssaValues := ssa |})) ∧
  (∀ z rest ssa,
     is_Some (TileOp.parseDenseIntArrayAttr w
                {| tokens := l_square :: printInteger z ++ r_square :: rest;
                   ssaValues := ssa |})
     ↔ fits w z) ∧
  (∀ t rest ssa,
     t ≠ l_square →
     TileOp.parseDenseIntArrayAttr w
       {| tokens := t :: rest; ssaValues := ssa |} = None) ∧
  (∀ ssa,
     TileOp.parseDenseIntArrayAttr w {| tokens := []; ssaValues := ssa |}
     = None).
Proof.
  unfold TileOp.parseDenseIntArrayAttr. split; [|split; [|split]].
  - intros. apply DenseArrayAttr_parse_print.
  - intros z rest ssa. rewrite DenseArrayAttr_parse_literal. split.
    + destruct (of_Z w z) as [v|] eqn:E; cbn.
      * intros _. by apply of_Z_Some in E as [_ ?].
      * by intros [? [=]].
    + intros Hfits. destruct (of_Z_fits w z Hfits) as (v & -> & _).
      by eexists.
  - intros t rest ssa Ht.
    unfold DenseArrayAttr_parse, parseLSquare, bind, next, ret, fail.
    cbn. by destruct t.
  - done.
Qed.

(** ** ExtractOp and InsertOp: parsing and printing *)

Lemma parseOperands_interleaveComma (v : Value) (vs : list Value) rest :
  parseOperands (interleaveCommaValues (v :: vs) ++ r_square :: rest)
  = Some (getName <$> v :: vs, r_square :: rest).
Proof.
  revert v. induction vs as [|v' vs IH]; intros v; [done|].
  change (interleaveCommaValues (v :: v' :: vs))
    with (printValue v ++ comma :: interleaveCommaValues (v' :: vs)).
  unfold printValue at 1. cbn -[interleaveCommaValues].
  by rewrite IH.
Qed.

(** A bracketed operand list reads back as the names of the operands. *)
Lemma parseOperandList_Square_print (vs : list Value) rest ssa :
  parseOperandList_Square
    {| tokens := l_square :: interleaveCommaValues vs ++ r_square :: rest;
       ssaValues := ssa |}
  = Some (getName <$> vs, {| tokens := rest; ssaValues := ssa |}).
Proof.
  unfold parseOperandList_Square, parseLSquare, parseRSquare, bind, next, ret.
  cbn [tokens ssaValues].
  destruct vs as [|v vs]; [done|].
  assert (parseOptionalRSquare
            {| tokens := interleaveCommaValues (v :: vs) ++ r_square :: rest;
               ssaValues := ssa |}
          = Some (false,
                  {| tokens :=
                       interleaveCommaValues (v :: vs) ++ r_square :: rest;
                     ssaValues := ssa |})) as ->.
  { unfold parseOptionalRSquare. cbn [tokens]. by destruct vs. }
  cbn [tokens ssaValues]. by rewrite parseOperands_interleaveComma.
Qed.

Lemma parseOptionalAttrDict_print (attrs : NamedAttrList) rest ssa :
  parseOptionalAttrDict
    {| tokens := printOptionalAttrDict attrs ++ colon :: rest;
       ssaValues := ssa |}
  = Some (attrs, {| tokens := colon :: rest; ssaValues := ssa |}).
Proof. by destruct attrs. Qed.

(** Operands that the scope defines with the requested type resolve to
    themselves and leave the scope as it is. *)
Lemma resolveOperands_defined (vs : list Value) (ty : Type_) toks ssa :
  Forall (λ v, typeOf v = ty ∧ ssa !! getName v = Some ty) vs →
  resolveOperands (getName <$> vs) ty {| tokens := toks; ssaValues := ssa |}
  = Some (vs, {| tokens := toks; ssaValues := ssa |}).
Proof.
  induction 1 as [|v vs [Hty Hscope] _ IH]; [done|].
  cbn [fmap list_fmap resolveOperands]. unfold bind at 1.
  unfold resolveOperand at 1. cbn [ssaValues tokens]. rewrite Hscope.
  rewrite decide_True by done. unfold bind at 1. rewrite IH.
  unfold ret. do 2 f_equal. destruct v as [n t]. cbn in *. by subst.
Qed.

(** The text of an extract parses up to the two casts and the resolution
    of its operands. *)
Lemma ExtractOp_parse_text result src offsets attrs original_type tile_type
    rest ssa :
  ExtractOp.parse result
    {| tokens :=
         Fixture.extract_text src offsets attrs original_type tile_type
         ++ rest;
       ssaValues := ssa |}
  = match tile_type, original_type with
    | RankedTensor tile, RankedTensor original =>
        (v <- lift (resolveOperand src
                      (TiledTensor (TiledTensorType_get tile original))) ;;
         vs <- lift (resolveOperands (getName <$> offsets) getI32Type) ;;
         retC (addTypes tile_type
                 (addOperands vs
                    (addOperand v (addAttributes attrs result)))))%checked
          {| tokens := rest; ssaValues := ssa |}
    | _, _ => ParseAborted (AssertionFailed "cast<RankedTensorType>")
    end.
Proof.
  unfold ExtractOp.parse, Fixture.extract_text.
  rewrite <- !app_assoc. cbn [app].
  unfold bindC at 1. unfold lift at 1.
  unfold parseOperand, bind, next, ret. cbn [tokens ssaValues].
  unfold bindC at 1. unfold lift at 1.
  rewrite parseOperandList_Square_print.
  unfold bindC at 1. unfold lift at 1.
  rewrite parseOptionalAttrDict_print.
  unfold bindC at 1. unfold lift at 1.
  unfold parseColonType, parseType, bind, next, ret. cbn [tokens ssaValues].
  unfold bindC at 1. unfold lift at 1.
  unfold parseKeyword, bind, next, ret. cbn [tokens ssaValues].
  rewrite decide_True by done.
  unfold bindC at 1. unfold lift at 1. cbn [tokens ssaValues].
  unfold bindC at 1. unfold castRankedTensorType at 1.
  destruct tile_type as [tile| | |]; cbn [cast_RankedTensorType]; try done.
  unfold bindC at 1. unfold castRankedTensorType at 1.
  by destruct original_type as [original| | |].
Qed.

Lemma resolveOperands_inv names ty st vs st' :
  resolveOperands names ty st = Some (vs, st') →
  Forall (λ v, typeOf v = ty) vs ∧ getName <$> vs = names.
Proof.
  revert st vs st'. induction names as [|name names IH]; intros st vs st'.
  - by intros [= <- _].
  - cbn [resolveOperands]. unfold bind at 1.
    destruct (resolveOperand name ty st) as [[v st1]|] eqn:E1; [|done].
    unfold bind at 1.
    destruct (resolveOperands names ty st1) as [[vs' st2]|] eqn:E2; [|done].
    unfold ret. intros [= <- _].
    apply resolveOperand_inv in E1 as (-> & _).
    apply IH in E2 as [Hall <-]. by split; [constructor|].
Qed.

(** X13.  The printed text of an [ExtractOp], parsed where the source is
    defined with its tiled tensor type and the offsets are defined [i32]
    values, yields the same source, offsets and attribute dictionary; the
    result type it yields is the tile type of the source, whatever type
    the result of the printed operation had. *)
Theorem ExtractOp_print_parse_round_trip
    (attrs : NamedAttrList) (op : ExtractOp.ExtractOp)
    (rest : list Token) (ssa : gmap string Type_) :
  ssa !! getName (ExtractOp.getSrc op)
  = Some (TiledTensor (getType (ExtractOp.getSrc op))) →
  Forall (Spec.defined_index ssa) (ExtractOp.getOffsets op) →
  ExtractOp.parse {| operands := []; attributes := []; types := [] |}
    {| tokens := ExtractOp.print attrs op ++ rest; ssaValues := ssa |}
  = Parsed
      {| operands := asTiledValue (ExtractOp.getSrc op)
                     :: ExtractOp.getOffsets op;
         attributes := attrs;
         types :=
           [RankedTensor (getTileType (getType (ExtractOp.getSrc op)))] |}
      {| tokens := rest; ssaValues := ssa |}.
Proof.
  intros Hsrc Hoffsets.
  change (ExtractOp.print attrs op)
    with (Fixture.extract_text (getName (ExtractOp.getSrc op))
            (ExtractOp.getOffsets op) attrs
            (RankedTensor (getOriginalType (getType (ExtractOp.getSrc op))))
            (RankedTensor (getTileType (getType (ExtractOp.getSrc op))))).
  rewrite ExtractOp_parse_text.
  assert (TiledTensorType_get (getTileType (getType (ExtractOp.getSrc op)))
            (getOriginalType (getType (ExtractOp.getSrc op)))
          = getType (ExtractOp.getSrc op)) as -> by by destruct (getType _).
  unfold bindC at 1. unfold lift at 1. unfold resolveOperand.
  cbn [ssaValues tokens]. rewrite Hsrc, decide_True by done.
  unfold bindC, lift. by rewrite (resolveOperands_defined _ _ _ _ Hoffsets).
Qed.

Lemma ExtractOp_print_parse_round_trip_witness :
  ExtractOp.parse Fixture.empty_state
    {| tokens := ExtractOp.print Fixture.discardable Fixture.extract ++ [];
       ssaValues := Fixture.tiling_scope |}
  = Parsed
      {| operands := asTiledValue (ExtractOp.getSrc Fixture.extract)
                     :: ExtractOp.getOffsets Fixture.extract;
         attributes := Fixture.discardable;
         types :=
           [RankedTensor
              (getTileType (getType (ExtractOp.getSrc Fixture.extract)))] |}
      {| tokens := []; ssaValues := Fixture.tiling_scope |}.
Proof.
  apply (ExtractOp_print_parse_round_trip Fixture.discardable Fixture.extract
           [] Fixture.tiling_scope).
  - reflexivity.
  - repeat constructor.
Defined.

(** X14.  [ExtractOp::parse] does not fail on a written original or tile
    type that is not a ranked tensor: the unchecked
    [cast<RankedTensorType>] stops the run on its assertion, before any
    operand is resolved. *)
Theorem ExtractOp_parse_aborts_on_other_types
    (result : OperationState) (src : string) (offsets : list Value)
    (attrs : NamedAttrList) (original_type tile_type : Type_)
    (rest : list Token) (ssa : gmap string Type_) :
  Spec.not_ranked original_type ∨ Spec.not_ranked tile_type →
  ExtractOp.parse result
    {| tokens :=
         Fixture.extract_text src offsets attrs original_type tile_type
         ++ rest;
       ssaValues := ssa |}
  = ParseAborted (AssertionFailed "cast<RankedTensorType>").
Proof.
  intros Hother. rewrite ExtractOp_parse_text.
  destruct tile_type as [tile| | |]; try done.
  destruct original_type as [original| | |]; try done.
  destruct Hother as [H|H]; [by destruct (H original) | by destruct (H tile)].
Qed.

Lemma ExtractOp_parse_aborts_on_other_types_witness :
  ExtractOp.parse Fixture.empty_state
    {| tokens :=
         Fixture.extract_text "tiled" [] [] getI32Type
           (RankedTensor (Fixture.tensor [Fixture.d 4 I] BFloat16Type))
         ++ [];
       ssaValues := Fixture.tiling_scope |}
  = ParseAborted (AssertionFailed "cast<RankedTensorType>").
Proof.
  apply (ExtractOp_parse_aborts_on_other_types Fixture.empty_state "tiled" []
           [] getI32Type
           (RankedTensor (Fixture.tensor [Fixture.d 4 I] BFloat16Type)) []
           Fixture.tiling_scope).
  left. intros t. discriminate.
Defined.

(** X15.  Whatever text [ExtractOp::parse] accepts, the source operand
    has the tiled tensor type built from the two written types, every
    offset operand has type [i32], and the one result type appended is the
    written tile type. *)
Theorem ExtractOp_parse_result_type result st r st' :
  ExtractOp.parse result st = Parsed r st' →
  ∃ v vs tile original,
    operands r = operands result ++ v :: vs ∧
    typeOf v = TiledTensor (TiledTensorType_get tile original) ∧
    Forall (λ o, typeOf o = getI32Type) vs ∧
    types r = types result ++ [RankedTensor tile].
Proof.
  unfold ExtractOp.parse, bindC, lift.
  destruct (parseOperand st) as [[src st1]|]; [|done].
  destruct (parseOperandList_Square st1) as [[offsets st2]|]; [|done].
  destruct (parseOptionalAttrDict st2) as [[dict st3]|]; [|done].
  destruct (parseColonType st3) as [[original_type st4]|]; [|done].
  destruct (parseKeyword "to" st4) as [[[] st5]|]; [|done].
  destruct (parseType st5) as [[tile_type st6]|]; [|done].
  unfold castRankedTensorType.
  destruct tile_type as [tile| | |]; cbn [cast_RankedTensorType]; try done.
  destruct original_type as [original| | |]; cbn [cast_RankedTensorType];
    try done.
  cbn [mret Outcome_ret].
  destruct (resolveOperand src _ st6) as [[v st7]|] eqn:E7; [|done].
  destruct (resolveOperands offsets _ st7) as [[vs st8]|] eqn:E8; [|done].
  unfold retC. intros [= <- _].
  apply resolveOperand_inv in E7 as (-> & _).
  apply resolveOperands_inv in E8 as [Hvs _].
  eexists _, vs, tile, original. cbn.
  split; [by rewrite <- app_assoc|]. by repeat split.
Qed.

Lemma ExtractOp_parse_result_type_witness :
  ∃ v vs tile original,
    operands
      {| operands := asTiledValue (ExtractOp.getSrc Fixture.extract)
                     :: ExtractOp.getOffsets Fixture.extract;
         attributes := [];
         types :=
           [RankedTensor
              (getTileType (getType (ExtractOp.getSrc Fixture.extract)))] |}
    = operands Fixture.empty_state ++ v :: vs ∧
    typeOf v = TiledTensor (TiledTensorType_get tile original) ∧
    Forall (λ o, typeOf o = getI32Type) vs ∧
    types
      {| operands := asTiledValue (ExtractOp.getSrc Fixture.extract)
                     :: ExtractOp.getOffsets Fixture.extract;
         attributes := [];
         types :=
           [RankedTensor
              (getTileType (getType (ExtractOp.getSrc Fixture.extract)))] |}
    = types Fixture.empty_state ++ [RankedTensor tile].
Proof.
  apply (ExtractOp_parse_result_type Fixture.empty_state
           {| tokens := ExtractOp.print [] Fixture.extract;
              ssaValues := Fixture.tiling_scope |}
           _ {| tokens := []; ssaValues := Fixture.tiling_scope |}).
  reflexivity.
Defined.

(** The text of an insert parses up to the resolution of the tile, the two
    casts and the resolution of the other operands. *)
Lemma InsertOp_parse_text result src dst offsets attrs tile_type original_type
    rest ssa :
  InsertOp.parse result
    {| tokens :=
         Fixture.insert_text src dst offsets attrs tile_type original_type
         ++ rest;
       ssaValues := ssa |}
  = (v_tile <- lift (resolveOperand src tile_type) ;;
     λ st,
       match tile_type, original_type with
       | RankedTensor tile, RankedTensor original =>
           (v <- lift (resolveOperand dst
                         (TiledTensor (TiledTensorType_get tile original))) ;;
            vs <- lift (resolveOperands (getName <$> offsets) getI32Type) ;;
            retC (addTypes original_type
                    (addOperands vs
                       (addOperand v
                          (addOperand v_tile
                             (addAttributes attrs result))))))%checked st
       | _, _ => ParseAborted (AssertionFailed "cast<RankedTensorType>")
       end)%checked
      {| tokens := rest; ssaValues := ssa |}.
Proof.
  unfold InsertOp.parse, Fixture.insert_text.
  rewrite <- !app_assoc. cbn [app].
  unfold bindC at 1. unfold lift at 1.
  unfold parseOperand, bind, next, ret. cbn [tokens ssaValues].
  unfold bindC at 1. unfold lift at 1.
  unfold parseKeyword at 1. unfold bind, next, ret. cbn [tokens ssaValues].
  rewrite decide_True by done.
  unfold bindC at 1. unfold lift at 1. cbn [tokens ssaValues].
  unfold bindC at 1. unfold lift at 1.
  rewrite parseOperandList_Square_print.
  unfold bindC at 1. unfold lift at 1.
  rewrite parseOptionalAttrDict_print.
  unfold bindC at 1. unfold lift at 1.
  unfold parseColonType, parseType, bind, next, ret. cbn [tokens ssaValues].
  unfold bindC at 1. unfold lift at 1.
  unfold parseKeyword, bind, next, ret. cbn [tokens ssaValues].
  rewrite decide_True by done.
  unfold bindC at 1. unfold lift at 1. cbn [tokens ssaValues].
  unfold bindC, lift, castRankedTensorType.
  destruct (resolveOperand src tile_type _) as [[v_tile st1]|]; [|done].
  destruct tile_type as [tile| | |]; cbn [cast_RankedTensorType]; try done.
  by destruct original_type as [original| | |].
Qed.

(** X16.  The printed text of an [InsertOp] whose source has the tile
    type of its destination, parsed where source, destination and offsets
    are defined, yields the same source, destination, offsets and attribute
    dictionary, and as result type the original type of the destination. *)
Theorem InsertOp_print_parse_round_trip
    (attrs : NamedAttrList) (op : InsertOp.InsertOp)
    (rest : list Token) (ssa : gmap string Type_) :
  getType (InsertOp.getSrc op) = getTileType (getType (InsertOp.getDst op)) →
  ssa !! getName (InsertOp.getSrc op)
  = Some (RankedTensor (getType (InsertOp.getSrc op))) →
  ssa !! getName (InsertOp.getDst op)
  = Some (TiledTensor (getType (InsertOp.getDst op))) →
  Forall (Spec.defined_index ssa) (InsertOp.getOffsets op) →
  InsertOp.parse {| operands := []; attributes := []; types := [] |}
    {| tokens := InsertOp.print attrs op ++ rest; ssaValues := ssa |}
  = Parsed
      {| operands := asValue (InsertOp.getSrc op)
                     :: asTiledValue (InsertOp.getDst op)
                     :: InsertOp.getOffsets op;
         attributes := attrs;
         types :=
           [RankedTensor (getOriginalType (getType (InsertOp.getDst op)))] |}
      {| tokens := rest; ssaValues := ssa |}.
Proof.
  intros Hty Hsrc Hdst Hoffsets.
  change (InsertOp.print attrs op)
    with (Fixture.insert_text (getName (InsertOp.getSrc op))
            (getName (InsertOp.getDst op)) (InsertOp.getOffsets op) attrs
            (RankedTensor (getTileType (getType (InsertOp.getDst op))))
            (RankedTensor (getOriginalType (getType (InsertOp.getDst op))))).
  rewrite InsertOp_parse_text.
  assert (TiledTensorType_get (getTileType (getType (InsertOp.getDst op)))
            (getOriginalType (getType (InsertOp.getDst op)))
          = getType (InsertOp.getDst op)) as ->
    by by destruct (getType (InsertOp.getDst op)).
  unfold bindC at 1. unfold lift at 1. unfold resolveOperand at 1.
  cbn [ssaValues tokens]. rewrite Hsrc, Hty, decide_True by done.
  unfold bindC at 1. unfold lift at 1. unfold resolveOperand at 1.
  cbn [ssaValues tokens]. rewrite Hdst, decide_True by done.
  unfold bindC, lift. rewrite (resolveOperands_defined _ _ _ _ Hoffsets).
  unfold retC, asValue. by rewrite Hty.
Qed.

Lemma InsertOp_print_parse_round_trip_witness :
  InsertOp.parse Fixture.empty_state
    {| tokens := InsertOp.print Fixture.discardable Fixture.insert ++ [];
       ssaValues := Fixture.tiling_scope |}
  = Parsed
      {| operands := asValue (InsertOp.getSrc Fixture.insert)
                     :: asTiledValue (InsertOp.getDst Fixture.insert)
                     :: InsertOp.getOffsets Fixture.insert;
         attributes := Fixture.discardable;
         types :=
           [RankedTensor
              (getOriginalType (getType (InsertOp.getDst Fixture.insert)))] |}
      {| tokens := []; ssaValues := Fixture.tiling_scope |}.
Proof.
  apply (InsertOp_print_parse_round_trip Fixture.discardable Fixture.insert
           [] Fixture.tiling_scope).
  - reflexivity.
  - reflexivity.
  - reflexivity.
  - repeat constructor.
Defined.

(** X17.  Where the scope defines the source with its type and that type
    is not the tile type of the destination, the printed text of the
    [InsertOp] fails to parse: the printer writes the tile type of the
    destination, against which the parser resolves the source. *)
Theorem InsertOp_print_parse_type_mismatch
    (attrs : NamedAttrList) (op : InsertOp.InsertOp)
    (rest : list Token) (ssa : gmap string Type_) :
  ssa !! getName (InsertOp.getSrc op)
  = Some (RankedTensor (getType (InsertOp.getSrc op))) →
  getType (InsertOp.getSrc op) ≠ getTileType (getType (InsertOp.getDst op)) →
  InsertOp.parse {| operands := []; attributes := []; types := [] |}
    {| tokens := InsertOp.print attrs op ++ rest; ssaValues := ssa |}
  = ParseFailed.
Proof.
  intros Hsrc Hne.
  change (InsertOp.print attrs op)
    with (Fixture.insert_text (getName (InsertOp.getSrc op))
            (getName (InsertOp.getDst op)) (InsertOp.getOffsets op) attrs
            (RankedTensor (getTileType (getType (InsertOp.getDst op))))
            (RankedTensor (getOriginalType (getType (InsertOp.getDst op))))).
  rewrite InsertOp_parse_text.
  unfold bindC at 1. unfold lift at 1. unfold resolveOperand at 1.
  cbn [ssaValues tokens]. rewrite Hsrc.
  rewrite decide_False; [done|]. by intros [= ?].
Qed.

Lemma InsertOp_print_parse_type_mismatch_witness :
  InsertOp.parse Fixture.empty_state
    {| tokens := InsertOp.print [] Fixture.mismatched_insert ++ [];
       ssaValues :=
         <["wide" := RankedTensor
                       (getType (InsertOp.getSrc Fixture.mismatched_insert))]>
           Fixture.tiling_scope |}
  = ParseFailed.
Proof.
  apply (InsertOp_print_parse_type_mismatch [] Fixture.mismatched_insert []).
  - reflexivity.
  - discriminate.
Defined.

(** X18.  When the tile operand resolves against the written tile type
    and one of the two written types is not a ranked tensor,
    [InsertOp::parse] stops on the assertion of the unchecked
    [cast<RankedTensorType>] instead of failing. *)
Theorem InsertOp_parse_aborts_on_other_types
    (result : OperationState) (src dst : string) (offsets : list Value)
    (attrs : NamedAttrList) (tile_type original_type : Type_)
    (rest : list Token) (ssa : gmap string Type_) :
  ssa !! src = None ∨ ssa !! src = Some tile_type →
  Spec.not_ranked tile_type ∨ Spec.not_ranked original_type →
  InsertOp.parse result
    {| tokens :=
         Fixture.insert_text src dst offsets attrs tile_type original_type
         ++ rest;
       ssaValues := ssa |}
  = ParseAborted (AssertionFailed "cast<RankedTensorType>").
Proof.
  intros Hsrc Hother. rewrite InsertOp_parse_text.
  unfold bindC at 1. unfold lift at 1. unfold resolveOperand at 1.
  cbn [ssaValues tokens].
  destruct Hsrc as [-> | ->].
  - destruct tile_type as [tile| | |]; try done.
    destruct original_type as [original| | |]; try done.
    destruct Hother as [H|H]; [by destruct (H tile) | by destruct (H original)].
  - rewrite decide_True by done.
    destruct tile_type as [tile| | |]; try done.
    destruct original_type as [original| | |]; try done.
    destruct Hother as [H|H]; [by destruct (H tile) | by destruct (H original)].
Qed.

Lemma InsertOp_parse_aborts_on_other_types_witness :
  InsertOp.parse Fixture.empty_state
    {| tokens :=
         Fixture.insert_text "i" "tiled" [] [] getI32Type
           (RankedTensor (Fixture.tensor [Fixture.d 4 I] BFloat16Type))
         ++ [];
       ssaValues := Fixture.tiling_scope |}
  = ParseAborted (AssertionFailed "cast<RankedTensorType>").
Proof.
  apply (InsertOp_parse_aborts_on_other_types Fixture.empty_state "i" "tiled"
           [] [] getI32Type
           (RankedTensor (Fixture.tensor [Fixture.d 4 I] BFloat16Type)) []
           Fixture.tiling_scope).
  - right. reflexivity.
  - left. intros t. discriminate.
Defined.

(** X19.  Whatever text [InsertOp::parse] accepts, the source operand
    has the written tile type, the destination has the tiled tensor type
    built from the two written types, every offset operand has type [i32],
    and the one result type appended is the written original type. *)
Theorem InsertOp_parse_operand_types result st r st' :
  InsertOp.parse result st = Parsed r st' →
  ∃ v_tile v vs tile original,
    operands r = operands result ++ v_tile :: v :: vs ∧
    typeOf v_tile = RankedTensor tile ∧
    typeOf v = TiledTensor (TiledTensorType_get tile original) ∧
    Forall (λ o, typeOf o = getI32Type) vs ∧
    types r = types result ++ [RankedTensor original].
Proof.
  unfold InsertOp.parse, bindC, lift.
  destruct (parseOperand st) as [[src st1]|]; [|done].
  destruct (parseKeyword "into" st1) as [[[] st2]|]; [|done].
  destruct (parseOperand st2) as [[dst st3]|]; [|done].
  destruct (parseOperandList_Square st3) as [[offsets st4]|]; [|done].
  destruct (parseOptionalAttrDict st4) as [[dict st5]|]; [|done].
  destruct (parseColonType st5) as [[tile_type st6]|]; [|done].
  destruct (parseKeyword "into" st6) as [[[] st7]|]; [|done].
  destruct (parseType st7) as [[original_type st8]|]; [|done].
  destruct (resolveOperand src tile_type st8) as [[v_tile st9]|] eqn:E9;
    [|done].
  unfold castRankedTensorType.
  destruct tile_type as [tile| | |]; cbn [cast_RankedTensorType]; try done.
  destruct original_type as [original| | |]; cbn [cast_RankedTensorType];
    try done.
  cbn [mret Outcome_ret].
  destruct (resolveOperand dst _ st9) as [[v st10]|] eqn:E10; [|done].
  destruct (resolveOperands offsets _ st10) as [[vs st11]|] eqn:E11; [|done].
  unfold retC. intros [= <- _].
  apply resolveOperand_inv in E9 as (-> & _).
  apply resolveOperand_inv in E10 as (-> & _).
  apply resolveOperands_inv in E11 as [Hvs _].
  eexists _, _, vs, tile, original. cbn.
  split; [by rewrite <- !app_assoc|]. by repeat split.
Qed.

Lemma InsertOp_parse_operand_types_witness :
  ∃ v_tile v vs tile original,
    operands
      {| operands := asValue (InsertOp.getSrc Fixture.insert)
                     :: asTiledValue (InsertOp.getDst Fixture.insert)
                     :: InsertOp.getOffsets Fixture.insert;
         attributes := [];
         types :=
           [RankedTensor
              (getOriginalType (getType (InsertOp.getDst Fixture.insert)))] |}
    = operands Fixture.empty_state ++ v_tile :: v :: vs ∧
    typeOf v_tile = RankedTensor tile ∧
    typeOf v = TiledTensor (TiledTensorType_get tile original) ∧
    Forall (λ o, typeOf o = getI32Type) vs ∧
    types
      {| operands := asValue (InsertOp.getSrc Fixture.insert)
                     :: asTiledValue (InsertOp.getDst Fixture.insert)
                     :: InsertOp.getOffsets Fixture.insert;
         attributes := [];
         types :=
           [RankedTensor
              (getOriginalType (getType (InsertOp.getDst Fixture.insert)))] |}
    = types Fixture.empty_state ++ [RankedTensor original].
Proof.
  apply (InsertOp_parse_operand_types Fixture.empty_state
           {| tokens := InsertOp.print [] Fixture.insert;
              ssaValues := Fixture.tiling_scope |}
           _ {| tokens := []; ssaValues := Fixture.tiling_scope |}).
  reflexivity.
Defined.
